(** * Daily news playlist: a shallow embedding of [daily_news_playlist.py]

    The script refreshes a Spotify playlist with the newest episode of a
    fixed list of podcast shows.  Everything it does goes through three
    kinds of effects: reading the process environment, talking to the
    remote API and reading the clock (plus [time.sleep] and [print]).

    The embedding keeps the program's structure:
    - the values returned by [resp.json()] are Python values built from
      [None], booleans, numbers, strings, lists and dicts ([json]);
    - Python exceptions are the [Raise] results of an error monad;
    - elapsed hours are binary64 floats, computed with the divisions Python
      performs;
    - the outside world is an [Env]: the environment variables, the remote
      server and the clock, the latter two as functions of the history of
      observable events, which is the state the monad threads. *)

From Stdlib Require Import ZArith QArith Ascii String List Lia.
From Corelib Require Import SpecFloat.
From stdpp Require Import base list strings gmap pretty.

Local Open Scope string_scope.
Local Open Scope list_scope.
Local Open Scope Z_scope.

#[local] Set Warnings "-register-all".

(** ** Python values *)

Inductive json : Type :=
| JNull
| JBool (b : bool)
| JInt (n : Z)
| JReal (q : Q)
| JStr (s : string)
| JArr (l : list json)
| JObj (kvs : list (string * json)).

(** Exceptions the script can die from.  [RuntimeError] is the one raised
    by [env]; the others come from [requests] and from Python itself. *)
Inductive exn : Type :=
| RuntimeError (msg : string)
| HTTPError (status : Z)
| RequestException
| JSONDecodeError
| KeyError
| TypeError
| AttributeError
| IndexError.

Inductive result (A : Type) : Type :=
| Ok (a : A)
| Raise (e : exn)
| OutOfFuel.
Arguments Ok {A} a.
Arguments Raise {A} e.
Arguments OutOfFuel {A}.

(** A dict is kept as its list of items; [d[k]] finds the item with key [k]. *)
Fixpoint assoc {A : Type} (k : string) (kvs : list (string * A)) : option A :=
  match kvs with
  | [] => None
  | (k', v) :: rest => if String.eqb k' k then Some v else assoc k rest
  end.

(** [bool(v)] *)
Definition truthy (v : json) : bool :=
  match v with
  | JNull => false
  | JBool b => b
  | JInt n => negb (n =? 0)
  | JReal q => negb (Qnum q =? 0)
  | JStr s => negb (String.eqb s "")
  | JArr l => match l with [] => false | _ => true end
  | JObj kvs => match kvs with [] => false | _ => true end
  end.

(** [v.get(k, default)]: only dicts have a [get]. *)
Definition py_get (v : json) (k : string) (default : json) : result json :=
  match v with
  | JObj kvs => Ok (match assoc k kvs with Some x => x | None => default end)
  | _ => Raise AttributeError
  end.

(** [v[k]] for a string key [k]. *)
Definition py_getitem (v : json) (k : string) : result json :=
  match v with
  | JObj kvs => match assoc k kvs with Some x => Ok x | None => Raise KeyError end
  | _ => Raise TypeError
  end.

(** [v[0]] *)
Definition py_getitem0 (v : json) : result json :=
  match v with
  | JArr (x :: _) => Ok x
  | JArr [] => Raise IndexError
  | JStr (String c _) => Ok (JStr (String c ""))
  | JStr EmptyString => Raise IndexError
  | JObj _ => Raise KeyError
  | _ => Raise TypeError
  end.

Fixpoint chars (s : string) : list json :=
  match s with
  | EmptyString => []
  | String c rest => JStr (String c "") :: chars rest
  end.

(** The elements a [for x in v] loop visits. *)
Definition py_iter (v : json) : result (list json) :=
  match v with
  | JArr l => Ok l
  | JObj kvs => Ok (map (fun kv => JStr (fst kv)) kvs)
  | JStr s => Ok (chars s)
  | _ => Raise TypeError
  end.

(** [v == name] for a string [name]: exact, case-sensitive. *)
Definition py_eq_str (v : json) (name : string) : bool :=
  match v with
  | JStr s => String.eqb s name
  | _ => false
  end.

(** Equality of hashable values, as a [set] sees it: [True == 1 == 1.0]. *)
Definition num_of (v : json) : option Q :=
  match v with
  | JBool b => Some (if b then 1%Q else 0%Q)
  | JInt n => Some (inject_Z n)
  | JReal q => Some q
  | _ => None
  end.

Definition py_eq (a b : json) : bool :=
  match a, b with
  | JNull, JNull => true
  | JStr s, JStr s' => String.eqb s s'
  | _, _ =>
      match num_of a, num_of b with
      | Some x, Some y => Qeq_bool x y
      | _, _ => false
      end
  end.

Definition hashable (v : json) : bool :=
  match v with
  | JArr _ | JObj _ => false
  | _ => true
  end.

(** [u in seen] for a set [seen], kept as the list of its elements. *)
Definition py_in (u : json) (seen : list json) : result bool :=
  if hashable u then Ok (existsb (py_eq u) seen) else Raise TypeError.

(** ** Dates

    [datetime] values and the arithmetic of the standard library the script
    relies on: proleptic Gregorian ordinals and differences counted in
    microseconds. *)

Record datetime : Type := DateTime {
  year : Z; month : Z; day : Z;
  hour : Z; minute : Z; second : Z; microsecond : Z
}.

Definition is_leap (y : Z) : bool :=
  (y mod 4 =? 0) && (negb (y mod 100 =? 0) || (y mod 400 =? 0)).

Definition days_in_month (y m : Z) : Z :=
  if (m =? 2) && is_leap y then 29
  else nth (Z.to_nat m) [0; 31; 28; 31; 30; 31; 30; 31; 31; 30; 31; 30; 31] 0.

Definition days_before_year (y : Z) : Z :=
  let y := y - 1 in y * 365 + y / 4 - y / 100 + y / 400.

Definition days_before_month (y m : Z) : Z :=
  nth (Z.to_nat m) [0; 0; 31; 59; 90; 120; 151; 181; 212; 243; 273; 304; 334] 0
  + (if (2 <? m) && is_leap y then 1 else 0).

Definition ymd2ord (y m d : Z) : Z :=
  days_before_year y + days_before_month y m + d.

(** [(a - b)] as a [timedelta], in microseconds. *)
Definition timedelta_us (a b : datetime) : Z :=
  let days := ymd2ord (year a) (month a) (day a) - ymd2ord (year b) (month b) (day b) in
  let secs := (hour a * 3600 + minute a * 60 + second a)
              - (hour b * 3600 + minute b * 60 + second b) in
  (days * 86400 + secs) * 1000000 + (microsecond a - microsecond b).

(** [strptime(s, "%Y-%m-%d")]: the format's regular expression is
    [\d\d\d\d-(1[0-2]|0[1-9]|[1-9])-(3[01]|[12]\d|0[1-9]|[1-9]| [1-9])],
    the whole string has to be consumed, and the date has to exist.
    [None] stands for the [ValueError] raised otherwise.  Digits are the
    ASCII ones. *)
Definition digit (c : ascii) : option Z :=
  let n := Z.of_N (N_of_ascii c) in
  if (48 <=? n) && (n <=? 57) then Some (n - 48) else None.

Definition digit_in (lo hi : Z) (c : ascii) : option Z :=
  match digit c with
  | Some d => if (lo <=? d) && (d <=? hi) then Some d else None
  | None => None
  end.

Definition orelse {A : Type} (a b : option A) : option A :=
  match a with Some _ => a | None => b end.

Definition dash : ascii := "-"%char.
Definition space : ascii := " "%char.

(** The month group followed by the dash. *)
Definition parse_month (s : list ascii) : option (Z * list ascii) :=
  orelse
    match s with
    | a :: b :: c :: rest =>
        match digit_in 1 1 a, digit_in 0 2 b with
        | Some _, Some d => if Ascii.eqb c dash then Some (10 + d, rest) else None
        | _, _ => None
        end
    | _ => None
    end
  (orelse
    match s with
    | a :: b :: c :: rest =>
        match digit_in 0 0 a, digit_in 1 9 b with
        | Some _, Some d => if Ascii.eqb c dash then Some (d, rest) else None
        | _, _ => None
        end
    | _ => None
    end
    match s with
    | a :: c :: rest =>
        match digit_in 1 9 a with
        | Some d => if Ascii.eqb c dash then Some (d, rest) else None
        | None => None
        end
    | _ => None
    end).

(** The day group: the first alternative that matches a prefix wins, and
    nothing may remain after it. *)
Definition parse_day (s : list ascii) : option Z :=
  let alt :=
    orelse
      match s with
      | a :: b :: rest =>
          match digit_in 3 3 a, digit_in 0 1 b with
          | Some _, Some d => Some (30 + d, rest)
          | _, _ => None
          end
      | _ => None
      end
    (orelse
      match s with
      | a :: b :: rest =>
          match digit_in 1 2 a, digit b with
          | Some t, Some d => Some (10 * t + d, rest)
          | _, _ => None
          end
      | _ => None
      end
    (orelse
      match s with
      | a :: b :: rest =>
          match digit_in 0 0 a, digit_in 1 9 b with
          | Some _, Some d => Some (d, rest)
          | _, _ => None
          end
      | _ => None
      end
    (orelse
      match s with
      | a :: rest =>
          match digit_in 1 9 a with
          | Some d => Some (d, rest)
          | None => None
          end
      | _ => None
      end
      match s with
      | a :: b :: rest =>
          match digit_in 1 9 b with
          | Some d => if Ascii.eqb a space then Some (d, rest) else None
          | None => None
          end
      | _ => None
      end))) in
  match alt with
  | Some (d, []) => Some d
  | _ => None
  end.

Definition strptime_ymd (s : string) : option datetime :=
  match list_ascii_of_string s with
  | y1 :: y2 :: y3 :: y4 :: c :: rest =>
      match digit y1, digit y2, digit y3, digit y4 with
      | Some a, Some b, Some c', Some d =>
          if Ascii.eqb c dash then
            match parse_month rest with
            | Some (m, rest') =>
                match parse_day rest' with
                | Some dd =>
                    let y := 1000 * a + 100 * b + 10 * c' + d in
                    if (1 <=? y) && (dd <=? days_in_month y m)
                    then Some (DateTime y m dd 0 0 0 0)
                    else None
                | None => None
                end
            | None => None
            end
          else None
      | _, _, _, _ => None
      end
  | _ => None
  end.

(** [.replace(tzinfo=utc, hour=12)] *)
Definition at_noon (d : datetime) : datetime :=
  DateTime (year d) (month d) (day d) 12 (minute d) (second d) (microsecond d).

(** ** Binary64 arithmetic

    The elapsed hours are a Python [float].  Floats are the binary64 values
    of the standard library's [SpecFloat] (53 bits of precision, exponents
    up to 1024), with round-to-nearest-even operations. *)

(** An integer as the floating-point datum of that exact value. *)
Definition exact_int (z : Z) : spec_float :=
  match z with
  | Z0 => S754_zero false
  | Zpos p => S754_finite false p 0
  | Zneg p => S754_finite true p 0
  end.

(** [float(z)] *)
Definition float_of_int (z : Z) : spec_float := binary_normalize 53 1024 z 0 false.

(** [a / b] on integers: the quotient, rounded once. *)
Definition int_truediv (a b : Z) : spec_float :=
  SFdiv 53 1024 (exact_int a) (exact_int b).

(** [x / n] for a float [x] and an integer [n]. *)
Definition float_div_int (x : spec_float) (n : Z) : spec_float :=
  SFdiv 53 1024 x (float_of_int n).

(** A float against an integer: Python compares the two exact values. *)
Definition float_cmp_int (x : spec_float) (n : Z) : option comparison :=
  match x with
  | S754_nan => None
  | S754_infinity s => Some (if s then Lt else Gt)
  | S754_zero _ => Some (0 ?= n)
  | S754_finite s m e =>
      let v := if s then Zneg m else Zpos m in
      Some (if 0 <=? e then v * 2 ^ e ?= n else v ?= n * 2 ^ (- e))
  end.

(** [x <= n] *)
Definition float_le_int (x : spec_float) (n : Z) : bool :=
  match float_cmp_int x n with
  | Some Lt | Some Eq => true
  | _ => false
  end.

(** The float carries the minus sign. *)
Definition negative_sign (x : spec_float) : bool :=
  match x with
  | S754_zero s | S754_infinity s | S754_finite s _ _ => s
  | S754_nan => false
  end.

(** [x] is a zero, an infinity or a finite float of sign [s]. *)
Definition signed (s : bool) (x : spec_float) : Prop :=
  x = S754_zero s \/ x = S754_infinity s \/ exists m e, x = S754_finite s m e.

(** [timedelta.total_seconds()]: the microseconds divided by [10**6]. *)
Definition total_seconds (us : Z) : spec_float := int_truediv us 1000000.

(** [(now - release_dt).total_seconds() / 3600] *)
Definition hours_since (now release_dt : datetime) : spec_float :=
  float_div_int (total_seconds (timedelta_us now release_dt)) 3600.

(** [hours_since <= fresh_hours] *)
Definition within_window (now release_dt : datetime) (fresh_hours : Z) : bool :=
  float_le_int (hours_since now release_dt) fresh_hours.

(** ** The outside world *)

(** The API paths the script builds with f-strings, kept structured. *)
Inductive path : Type :=
| MePlaylists                          (* /me/playlists *)
| UserPlaylists (user_id : string)     (* /users/{user_id}/playlists *)
| Search                               (* /search *)
| ShowEpisodes (show_id : json)        (* /shows/{show_id}/episodes *)
| PlaylistTracks (playlist_id : json). (* /playlists/{playlist_id}/tracks *)

(** The four HTTP calls of the script.  [TokenPost] carries the
    [client_id:client_secret] pair that goes base64-encoded into the
    [Authorization: Basic] header, and the form data. *)
Inductive request : Type :=
| TokenPost (credentials : string) (data : list (string * string))
| ApiGet (p : path) (token : json) (params : list (string * json))
| ApiPost (p : path) (token : json) (json_data : json)
| ApiPut (p : path) (token : json) (json_data : json).

(** What [requests] hands back: [json_body] is what [resp.json()] returns,
    [None] when the body does not decode. *)
Record response : Type := Response {
  status_code : Z;
  text : string;
  json_body : option json
}.

(** A call either gets a response or fails in transit (time-out, connection
    error). *)
Inductive reply : Type :=
| NoReply
| Reply (r : response).

Inductive event : Type :=
| Sent (r : request)
| Slept (seconds : Q)
| Printed (line : string).

Definition history : Type := list event.

Record Env : Type := {
  environ : gmap string string;
  server : history -> request -> reply;
  utcnow : history -> datetime
}.

(** ** The monads: exceptions, and exceptions over the history *)

Definition rbind {A B : Type} (r : result A) (f : A -> result B) : result B :=
  match r with
  | Ok a => f a
  | Raise e => Raise e
  | OutOfFuel => OutOfFuel
  end.

Definition M (A : Type) : Type := history -> result A * history.

Definition ret {A : Type} (a : A) : M A := fun h => (Ok a, h).

Definition raise {A : Type} (e : exn) : M A := fun h => (Raise e, h).

Definition lift {A : Type} (r : result A) : M A := fun h => (r, h).

Definition bind {A B : Type} (m : M A) (f : A -> M B) : M B :=
  fun h =>
    match m h with
    | (Ok a, h') => f a h'
    | (Raise e, h') => (Raise e, h')
    | (OutOfFuel, h') => (OutOfFuel, h')
    end.

Definition emit (e : event) : M unit := fun h => (Ok tt, h ++ [e]).

Notation "x <~ c ;; k" := (rbind c (fun x => k))
  (at level 100, c at next level, right associativity).
Notation "x <- c ;; k" := (bind c (fun x => k))
  (at level 100, c at next level, right associativity).
Notation "c ;;; k" := (bind c (fun _ => k))
  (at level 100, right associativity).

(** ** Configuration *)

Definition PLAYLIST_NAME : string := "Notícias do Dia (Auto)".
Definition PLAYLIST_DESCRIPTION : string :=
  "Atualizada automaticamente com notícias gerais e de esportes (futebol) "
  +:+ "das últimas 24–36h.".

Definition NEWS_SHOW_QUERIES : list string :=
  ["the news ☕️"; "Resumão Diário"; "Café da Manhã"; "Ao Ponto"].

Definition SPORTS_SHOW_QUERIES : list string :=
  ["Resumo do dIA ge"; "CBN Esportes"].

Definition FRESH_HOURS : Z := 36.

Definition MARKET : string := "BR".

(** ** The script *)

Section Script.

Context (W : Env).

(** [requests.get/post/put]: the call is recorded, then answered. *)
Definition send (r : request) : M response :=
  fun h =>
    match server W h r with
    | Reply resp => (Ok resp, h ++ [Sent r])
    | NoReply => (Raise RequestException, h ++ [Sent r])
    end.

(** [resp.raise_for_status()] *)
Definition raise_for_status (resp : response) : M unit :=
  if (400 <=? status_code resp) && (status_code resp <? 600)
  then raise (HTTPError (status_code resp))
  else ret tt.

(** [resp.json()] *)
Definition resp_json (resp : response) : M json :=
  match json_body resp with
  | Some j => ret j
  | None => raise JSONDecodeError
  end.

(** [resp.json() if resp.text else {}] *)
Definition json_or_empty (resp : response) : M json :=
  if String.eqb (text resp) "" then ret (JObj []) else resp_json resp.

Definition env (name : string) : M string :=
  match environ W !! name with
  | Some value =>
      if String.eqb value ""
      then raise (RuntimeError ("Missing environment variable: " +:+ name))
      else ret value
  | None => raise (RuntimeError ("Missing environment variable: " +:+ name))
  end.

Definition get_access_token : M json :=
  client_id <- env "SPOTIFY_CLIENT_ID";;
  client_secret <- env "SPOTIFY_CLIENT_SECRET";;
  refresh_token <- env "SPOTIFY_REFRESH_TOKEN";;
  let basic := client_id +:+ ":" +:+ client_secret in
  let data := [("grant_type", "refresh_token"); ("refresh_token", refresh_token)] in
  resp <- send (TokenPost basic data);;
  raise_for_status resp;;;
  j <- resp_json resp;;
  lift (py_getitem j "access_token").

Definition api_get (p : path) (token : json) (params : list (string * json)) : M json :=
  resp <- send (ApiGet p token params);;
  raise_for_status resp;;;
  resp_json resp.

Definition api_post (p : path) (token : json) (json_data : json) : M json :=
  resp <- send (ApiPost p token json_data);;
  raise_for_status resp;;;
  json_or_empty resp.

Definition api_put (p : path) (token : json) (json_data : json) : M json :=
  resp <- send (ApiPut p token json_data);;
  (if (status_code resp =? 200) || (status_code resp =? 201)
   then ret tt
   else raise_for_status resp);;;
  json_or_empty resp.

(** The [for playlist in ...] loop of [get_or_create_playlist]:
    [Some id] when it returns from inside the loop. *)
Fixpoint scan_playlists (name : string) (items : list json) : result (option json) :=
  match items with
  | [] => Ok None
  | playlist :: rest =>
      n <~ py_get playlist "name" JNull;;
      if py_eq_str n name
      then (id <~ py_getitem playlist "id";; Ok (Some id))
      else scan_playlists name rest
  end.

(** The [while True] loop, one page per unit of fuel. *)
Fixpoint find_playlist (fuel : nat) (token : json) (name : string)
    (limit offset : Z) : M (option json) :=
  match fuel with
  | O => lift OutOfFuel
  | S fuel' =>
      page <- api_get MePlaylists token [("limit", JInt limit); ("offset", JInt offset)];;
      items <- lift (py_get page "items" (JArr []));;
      playlists <- lift (py_iter items);;
      found <- lift (scan_playlists name playlists);;
      match found with
      | Some id => ret (Some id)
      | None =>
          next <- lift (py_get page "next" JNull);;
          if truthy next
          then find_playlist fuel' token name limit (offset + limit)
          else ret None
      end
  end.

Definition get_or_create_playlist (fuel : nat) (token : json) (user_id : string)
    (name description : string) (public : bool) : M json :=
  found <- find_playlist fuel token name 50 0;;
  match found with
  | Some id => ret id
  | None =>
      let payload :=
        JObj [("name", JStr name); ("public", JBool public);
              ("description", JStr description)] in
      resp <- api_post (UserPlaylists user_id) token payload;;
      lift (py_getitem resp "id")
  end.

Definition search_show_id (token : json) (query : string) : M json :=
  let params :=
    [("q", JStr query); ("type", JStr "show"); ("market", JStr MARKET);
     ("limit", JInt 1)] in
  data <- api_get Search token params;;
  shows <- lift (py_get data "shows" (JObj []));;
  items <- lift (py_get shows "items" (JArr []));;
  if truthy items
  then (first <- lift (py_getitem0 items);; lift (py_getitem first "id"))
  else ret JNull.

(** The [for episode in items] loop of [get_latest_fresh_episode_uri]:
    [Some uri] when it returns from inside the loop.  [strptime] raises
    [TypeError], which is not caught, on anything but a string. *)
Fixpoint first_fresh (now : datetime) (fresh_hours : Z) (episodes : list json)
    : result (option json) :=
  match episodes with
  | [] => Ok None
  | episode :: rest =>
      release_date <~ py_get episode "release_date" JNull;;
      if negb (truthy release_date) then first_fresh now fresh_hours rest
      else
        match release_date with
        | JStr s =>
            match strptime_ymd s with
            | None => first_fresh now fresh_hours rest
            | Some d =>
                let release_dt := at_noon d in
                if within_window now release_dt fresh_hours
                then (uri <~ py_getitem episode "uri";; Ok (Some uri))
                else first_fresh now fresh_hours rest
            end
        | _ => Raise TypeError
        end
  end.

Definition get_latest_fresh_episode_uri (token : json) (show_id : json)
    (fresh_hours : Z) : M json :=
  let params := [("market", JStr MARKET); ("limit", JInt 3)] in
  data <- api_get (ShowEpisodes show_id) token params;;
  items <- lift (py_get data "items" (JArr []));;
  if negb (truthy items) then ret JNull
  else
    now <- (fun h => (Ok (utcnow W h), h));;
    episodes <- lift (py_iter items);;
    found <- lift (first_fresh now fresh_hours episodes);;
    match found with
    | Some uri => ret uri
    | None => first <- lift (py_getitem0 items);; lift (py_getitem first "uri")
    end.

(** The accumulator of [build_episode_list]: [episode_uris] and [seen]. *)
Definition acc : Type := (list json * list json)%type.

Definition add_latest (token : json) (show_query : string) (a : acc) : M acc :=
  let '(episode_uris, seen) := a in
  show_id <- search_show_id token show_query;;
  if negb (truthy show_id) then ret a
  else
    uri <- get_latest_fresh_episode_uri token show_id FRESH_HOURS;;
    if truthy uri then
      dup <- lift (py_in uri seen);;
      if dup then ret a
      else
        emit (Slept (1 # 4));;;
        ret (episode_uris ++ [uri], seen ++ [uri])
    else ret a.

(** [for query in queries: add_latest(query)] *)
Fixpoint add_all (token : json) (queries : list string) (a : acc) : M acc :=
  match queries with
  | [] => ret a
  | query :: rest => a' <- add_latest token query a;; add_all token rest a'
  end.

Definition build_episode_list (token : json) : M (list json) :=
  a <- add_all token (NEWS_SHOW_QUERIES ++ SPORTS_SHOW_QUERIES) ([], []);;
  ret (take 20 (fst a)).

Definition replace_playlist_items (token : json) (playlist_id : json)
    (uris : list json) : M unit :=
  api_put (PlaylistTracks playlist_id) token (JObj [("uris", JArr uris)]);;;
  ret tt.

Definition updated_line (n : nat) : string :=
  "Playlist atualizada com " +:+ pretty n +:+ " episódios.".

Definition nothing_fresh_line : string :=
  "Nenhum episódio fresco encontrado; playlist não atualizada.".

Definition main (fuel : nat) : M unit :=
  token <- get_access_token;;
  user_id <- env "SPOTIFY_USER_ID";;
  playlist_id <- get_or_create_playlist fuel token user_id
                   PLAYLIST_NAME PLAYLIST_DESCRIPTION false;;
  episode_uris <- build_episode_list token;;
  match episode_uris with
  | _ :: _ =>
      replace_playlist_items token playlist_id episode_uris;;;
      emit (Printed (updated_line (length episode_uris)))
  | [] => emit (Printed nothing_fresh_line)
  end.

End Script.

(** ** Worlds used as concrete inputs *)

(** A server that answers every call with [200] and the body [body r]. *)
Definition always_ok (body : request -> json) : history -> request -> reply :=
  fun _ r => Reply (Response 200 "{}" (Some (body r))).

Definition fixed_clock (now : datetime) : history -> datetime := fun _ => now.

Definition with_environ (W : Env) (e : gmap string string) : Env :=
  {| environ := e; server := server W; utcnow := utcnow W |}.

(** The names read by [get_access_token], in the order it reads them. *)
Definition CREDENTIALS : list string :=
  ["SPOTIFY_CLIENT_ID"; "SPOTIFY_CLIENT_SECRET"; "SPOTIFY_REFRESH_TOKEN"].

Definition REQUIRED : list string := CREDENTIALS ++ ["SPOTIFY_USER_ID"].

(** [not os.getenv(name)] *)
Definition missing (W : Env) (name : string) : bool :=
  match environ W !! name with
  | Some value => String.eqb value ""
  | None => true
  end.

Definition missing_line (name : string) : string :=
  "Missing environment variable: " +:+ name.

(** The run of C8's counterexample: every credential is set, the user
    identifier is not, and the server answers the token request. *)
Definition W_no_user : Env :=
  {| environ := list_to_map [("SPOTIFY_CLIENT_ID", "id"); ("SPOTIFY_CLIENT_SECRET", "secret");
                             ("SPOTIFY_REFRESH_TOKEN", "refresh")];
     server := always_ok (fun _ => JObj [("access_token", JStr "token")]);
     utcnow := fixed_clock (DateTime 2024 1 10 12 0 0 0) |}.

(** The claim of C8 at one required name: with that value missing, the run
    dies of the configuration error and nothing was sent. *)
Definition aborts_before_any_call (W : Env) (fuel : nat) : Prop :=
  exists msg, main W fuel [] = (Raise (RuntimeError msg), []).

(** ** Vocabulary of the statements *)

(** [raise_for_status] lets the response through. *)
Definition ok_status (resp : response) : bool :=
  negb ((400 <=? status_code resp) && (status_code resp <? 600)).

(** Asked [r] after the history [h], the server answers with a success
    status and a body that decodes to [data]. *)
Definition answers (W : Env) (h : history) (r : request) (data : json) : Prop :=
  exists resp, server W h r = Reply resp
               /\ ok_status resp = true /\ json_body resp = Some data.

Definition episodes_request (token show_id : json) : request :=
  ApiGet (ShowEpisodes show_id) token [("market", JStr MARKET); ("limit", JInt 3)].

Definition search_request (token : json) (query : string) : request :=
  ApiGet Search token
    [("q", JStr query); ("type", JStr "show"); ("market", JStr MARKET); ("limit", JInt 1)].

(** An episode the freshness loop passes over without returning and without
    raising: a dict whose release date is absent or falsy, or is a string
    that does not parse, or parses to an instant outside the window. *)
Definition passed_over (now : datetime) (fresh_hours : Z) (episode : json) : bool :=
  match episode with
  | JObj kvs =>
      match assoc "release_date" kvs with
      | None => true
      | Some v =>
          if truthy v then
            match v with
            | JStr s =>
                match strptime_ymd s with
                | None => true
                | Some d => negb (within_window now (at_noon d) fresh_hours)
                end
            | _ => false
            end
          else true
      end
  | _ => false
  end.

(** ** Concrete remote catalogues *)

Definition episode_entry (release_date uri : string) : json :=
  JObj [("release_date", JStr release_date); ("uri", JStr uri)].

Definition listing (episodes : list json) : json :=
  JObj [("items", JArr episodes)].

Definition playlist_entry (name id : string) : json :=
  JObj [("name", JStr name); ("id", JStr id)].

(** A small well-behaved server: one page of playlists, a search that
    resolves every query to the show named like the query, and a catalogue
    [episodes_of] of episode listings per show. *)
Definition demo_body (playlists : list json) (episodes_of : json -> list json)
    (r : request) : json :=
  match r with
  | TokenPost _ _ => JObj [("access_token", JStr "token")]
  | ApiGet MePlaylists _ _ => JObj [("items", JArr playlists); ("next", JNull)]
  | ApiGet Search _ params =>
      match assoc "q" params with
      | Some q => JObj [("shows", JObj [("items", JArr [JObj [("id", q)]])])]
      | None => JObj []
      end
  | ApiGet (ShowEpisodes show_id) _ _ => listing (episodes_of show_id)
  | ApiPost _ _ _ => JObj [("id", JStr "created")]
  | _ => JObj []
  end.

Definition demo_world (now : datetime) (playlists : list json)
    (episodes_of : json -> list json) : Env :=
  {| environ := list_to_map [("SPOTIFY_CLIENT_ID", "id"); ("SPOTIFY_CLIENT_SECRET", "secret");
                             ("SPOTIFY_REFRESH_TOKEN", "refresh"); ("SPOTIFY_USER_ID", "user")];
     server := always_ok (demo_body playlists episodes_of);
     utcnow := fixed_clock now |}.

(** Every show lists the same episodes. *)
Definition one_show_world (now : datetime) (episodes : list json) : Env :=
  demo_world now [] (fun _ => episodes).

(** The moment of the freshness scenarios: 2024-01-10T12:00:00Z. *)
Definition scenario_now : datetime := DateTime 2024 1 10 12 0 0 0.

(** Three stale episodes. *)
Definition W_stale : Env :=
  one_show_world scenario_now
    [episode_entry "2023-12-01" "ep1"; episode_entry "2023-11-20" "ep2";
     episode_entry "2023-11-01" "ep3"].

(** One episode inside the 36 hour window, two outside. *)
Definition W_scenario : Env :=
  one_show_world scenario_now
    [episode_entry "2024-01-09" "ep1"; episode_entry "2024-01-08" "ep2";
     episode_entry "2024-01-05" "ep3"].

(** The newest episode is exactly 36 hours old. *)
Definition W_boundary : Env :=
  one_show_world (DateTime 2024 1 11 0 0 0 0)
    [episode_entry "2024-01-09" "ep1"; episode_entry "2024-01-08" "ep2"].

(** Eight in the morning: today's episode counts as released at noon. *)
Definition W_future : Env :=
  one_show_world (DateTime 2024 1 10 8 0 0 0)
    [episode_entry "2024" "ep0"; episode_entry "2024-01-10" "ep1"].

(** No show has any episode. *)
Definition W_empty : Env := one_show_world scenario_now [].

(** ** Observing a run *)

(** The playlist-replacement call. *)
Definition is_write (e : event) : bool :=
  match e with
  | Sent (ApiPut _ _ _) => true
  | _ => false
  end.

(** A computation that only adds events to the history, none of them a
    playlist replacement. *)
Definition quiet {A : Type} (m : M A) : Prop :=
  forall h r h', m h = (r, h') ->
    exists evs, h' = h ++ evs /\ Forall (fun e => is_write e = false) evs.

Definition replace_request (token playlist_id : json) (uris : list json) : request :=
  ApiPut (PlaylistTracks playlist_id) token (JObj [("uris", JArr uris)]).

(** Between the histories [h] and [h'] of a run, the show found for [query]
    yielded the URI [uri]. *)
Definition yields (W : Env) (token : json) (h h' : history)
    (query : string) (uri : json) : Prop :=
  exists h0 h1 h2 show_id,
    h `prefix_of` h0 /\ h2 `prefix_of` h'
    /\ search_show_id W token query h0 = (Ok show_id, h1)
    /\ truthy show_id = true
    /\ get_latest_fresh_episode_uri W token show_id FRESH_HOURS h1 = (Ok uri, h2)
    /\ truthy uri = true.

(** Every show has one fresh episode of its own, named like the show. *)
Definition W_six : Env :=
  demo_world scenario_now []
    (fun show_id =>
       match show_id with
       | JStr s => [episode_entry "2024-01-10" s]
       | _ => []
       end).

(** ** Vocabulary of the playlist resolver *)

Definition playlists_request (token : json) (offset : Z) : request :=
  ApiGet MePlaylists token [("limit", JInt 50); ("offset", JInt offset)].

Definition create_request (token : json) (user_id name description : string)
    (public : bool) : request :=
  ApiPost (UserPlaylists user_id) token
    (JObj [("name", JStr name); ("public", JBool public);
           ("description", JStr description)]).

(** The requests for [n] successive pages of 50, starting at [offset]. *)
Fixpoint page_requests (token : json) (offset : Z) (n : nat) : list event :=
  match n with
  | O => []
  | S n' => Sent (playlists_request token offset) :: page_requests token (offset + 50) n'
  end.

(** [pages] are the answers to the successive page requests, the first one
    asked at [offset] after the history [h]. *)
Fixpoint serves (W : Env) (token : json) (h : history) (offset : Z)
    (pages : list json) : Prop :=
  match pages with
  | [] => True
  | page :: rest =>
      answers W h (playlists_request token offset) page
      /\ serves W token (h ++ [Sent (playlists_request token offset)]) (offset + 50) rest
  end.

(** The playlists of a page: its "items", none when the key is absent. *)
Definition page_entries (page : json) : option (list json) :=
  match py_get page "items" (JArr []) with
  | Ok (JArr l) => Some l
  | _ => None
  end.

Definition is_dict (v : json) : bool :=
  match v with
  | JObj _ => true
  | _ => false
  end.

(** A page is a dict whose "items" is a list of dicts. *)
Definition well_formed_page (page : json) : bool :=
  match page_entries page with
  | Some l => forallb is_dict l
  | None => false
  end.

Definition has_next (page : json) : bool :=
  match py_get page "next" JNull with
  | Ok v => truthy v
  | _ => false
  end.

(** The playlist's name is the target name. *)
Definition named (name : string) (entry : json) : bool :=
  match py_get entry "name" JNull with
  | Ok v => py_eq_str v name
  | _ => false
  end.

(** All playlists, in pagination order. *)
Definition entries (pages : list json) : list json :=
  flat_map (fun page => match page_entries page with Some l => l | None => [] end) pages.

(** Every page but the last announces a next page. *)
Fixpoint chained (pages : list json) : bool :=
  match pages with
  | [] => false
  | page :: rest =>
      match rest with
      | [] => true
      | _ :: _ => has_next page && chained rest
      end
  end.

(** The last page announces no next page. *)
Definition ends (pages : list json) : bool :=
  match last pages with
  | Some page => negb (has_next page)
  | None => false
  end.

(** As [answers], for the calls that read the body only when the response
    text is not empty. *)
Definition answers_with_body (W : Env) (h : history) (r : request) (data : json) : Prop :=
  exists resp, server W h r = Reply resp
               /\ ok_status resp = true /\ text resp <> "" /\ json_body resp = Some data.

(** Two pages of playlists; the target is the second playlist of page 2. *)
Definition two_pages : list json :=
  [JObj [("items", JArr [playlist_entry "Rock" "p1"; playlist_entry "Jazz" "p2"]);
         ("next", JStr "https://api.spotify.com/v1/me/playlists?offset=50&limit=50")];
   JObj [("items", JArr [playlist_entry "notícias do dia (auto)" "p3";
                         playlist_entry PLAYLIST_NAME "p4";
                         playlist_entry PLAYLIST_NAME "p5"]);
         ("next", JNull)]].

Definition W_two_pages : Env :=
  {| environ := ∅;
     server := fun _ r =>
       match r with
       | ApiGet MePlaylists _ params =>
           match assoc "offset" params with
           | Some (JInt 0) => Reply (Response 200 "{}" (nth_error two_pages 0))
           | Some (JInt 50) => Reply (Response 200 "{}" (nth_error two_pages 1))
           | _ => Reply (Response 404 "" None)
           end
       | _ => Reply (Response 201 "{}" (Some (JObj [("id", JStr "created")])))
       end;
     utcnow := fixed_clock scenario_now |}.

(** [f] holds of every integer from [0] to [n]. *)
Fixpoint all_upto (f : Z -> bool) (n : nat) : bool :=
  match n with
  | O => f 0
  | S k => f (Z.of_nat n) && all_upto f k
  end.

(** The float computed for an elapsed time of exactly [n] hours equals [n]. *)
Definition whole_hours_exact (n : Z) : bool :=
  match float_cmp_int (float_div_int (total_seconds (n * 3600 * 1000000)) 3600) n with
  | Some Eq => true
  | _ => false
  end.

(** ** Vocabulary of the further properties *)

(** A computation that only adds events to the history, each satisfying [P]. *)
Definition emits {A : Type} (P : event -> Prop) (m : M A) : Prop :=
  forall h r h', m h = (r, h') -> exists evs, h' = h ++ evs /\ Forall P evs.

(** What the episode list builder may add to the history: searches and
    episode listings made with its token, and the pause of 0.25. *)
Definition builder_event (token : json) (e : event) : Prop :=
  match e with
  | Sent (ApiGet Search t _) | Sent (ApiGet (ShowEpisodes _) t _) => t = token
  | Slept seconds => seconds = (1 # 4)%Q
  | _ => False
  end.

Definition is_sleep (e : event) : bool :=
  match e with
  | Slept _ => true
  | _ => false
  end.

Definition sleeps (evs : list event) : nat := length (List.filter is_sleep evs).

(** The payload [main] creates its playlist with. *)
Definition private_playlist_payload : json :=
  JObj [("name", JStr PLAYLIST_NAME); ("public", JBool false);
        ("description", JStr PLAYLIST_DESCRIPTION)].

(** What a whole run may add to the history. *)
Definition main_event (e : event) : Prop :=
  match e with
  | Sent (TokenPost _ data) => assoc "grant_type" data = Some "refresh_token"
  | Sent (ApiGet MePlaylists _ _)
  | Sent (ApiGet Search _ _)
  | Sent (ApiGet (ShowEpisodes _) _ _) => True
  | Sent (ApiPost (UserPlaylists _) _ payload) => payload = private_playlist_payload
  | Sent (ApiPut (PlaylistTracks _) _ _) => True
  | Slept _ => True
  | Printed line => line = nothing_fresh_line \/ exists n, line = updated_line n
  | _ => False
  end.

(** A server that answers every call with the same response. *)
Definition always_replies (resp : response) : history -> request -> reply :=
  fun _ _ => Reply resp.

Definition world_replying (resp : response) : Env :=
  {| environ := list_to_map [("SPOTIFY_CLIENT_ID", "id"); ("SPOTIFY_CLIENT_SECRET", "secret");
                             ("SPOTIFY_REFRESH_TOKEN", "refresh"); ("SPOTIFY_USER_ID", "user")];
     server := always_replies resp;
     utcnow := fixed_clock scenario_now |}.

(** Internal server error on every call. *)
Definition W_failing : Env := world_replying (Response 500 "Internal Server Error" None).

(** Every call is accepted with [204 No Content]. *)
Definition W_no_content : Env := world_replying (Response 204 "" None).

(** Every call is accepted with an empty JSON object: no show is found. *)
Definition W_nothing_found : Env := world_replying (Response 200 "{}" (Some (JObj []))).


(** The newest episode has a number where its release date should be. *)
Definition W_bad_date : Env :=
  one_show_world scenario_now
    [JObj [("release_date", JInt 20240109); ("uri", JStr "ep1")];
     episode_entry "2024-01-09" "ep2"].

(** The newest episode is dated by its month only. *)
Definition W_month_precision : Env :=
  one_show_world scenario_now
    [episode_entry "2024-01" "ep1"; episode_entry "2024-01-09" "ep2"].

(** The request [get_access_token] sends for the given credentials. *)
Definition token_request (client_id client_secret refresh_token : string) : request :=
  TokenPost (client_id +:+ ":" +:+ client_secret)
    [("grant_type", "refresh_token"); ("refresh_token", refresh_token)].

(** The environment variable [name] is set to the non-empty [value]. *)
Definition has_value (W : Env) (name value : string) : Prop :=
  environ W !! name = Some value /\ value <> "".

(** Dates as the catalogue writes them with day precision: [YYYY-MM-DD],
    zero-padded. *)
Definition digit_char (d : Z) : ascii := ascii_of_N (Z.to_N (48 + d)).

Definition two_digits (n : Z) : list ascii :=
  [digit_char (n / 10); digit_char (n mod 10)].

Definition four_digits (n : Z) : list ascii :=
  [digit_char (n / 1000); digit_char (n / 100 mod 10);
   digit_char (n / 10 mod 10); digit_char (n mod 10)].

Definition isoformat (y m d : Z) : string :=
  string_of_list_ascii (four_digits y ++ dash :: two_digits m ++ dash :: two_digits d).

(** Whatever happened before, the search for [query] finds the show
    [show_id], whose selected episode is the non-empty string [uri]. *)
Definition always_yields (W : Env) (token : json) (query : string)
    (show_id : json) (uri : string) : Prop :=
  truthy show_id = true /\ uri <> ""
  /\ (forall h, search_show_id W token query h
                = (Ok show_id, h ++ [Sent (search_request token query)]))
  /\ (forall h, get_latest_fresh_episode_uri W token show_id FRESH_HOURS h
                = (Ok (JStr uri), h ++ [Sent (episodes_request token show_id)])).

(** The creation call is accepted with an empty body. *)
Definition W_created_silently : Env :=
  {| environ := ∅;
     server := fun _ r =>
       match r with
       | ApiGet _ _ _ => Reply (Response 200 "{}" (Some (JObj [("items", JArr [])])))
       | _ => Reply (Response 201 "" None)
       end;
     utcnow := fixed_clock scenario_now |}.

(** * Properties *)

(** ** Running the monad *)

Lemma bind_raise {A B} (m : M A) (f : A -> M B) h e h' :
  m h = (Raise e, h') -> bind m f h = (Raise e, h').
Proof. unfold bind. by intros ->. Qed.

Lemma bind_ok {A B} (m : M A) (f : A -> M B) h a h' :
  m h = (Ok a, h') -> bind m f h = f a h'.
Proof. unfold bind. by intros ->. Qed.

(** ** The date functions on examples *)

Example strptime_ok :
  strptime_ymd "2024-01-09" = Some (DateTime 2024 1 9 0 0 0 0)
  /\ strptime_ymd "2024-2-29" = Some (DateTime 2024 2 29 0 0 0 0)
  /\ strptime_ymd "2023-02-29" = None
  /\ strptime_ymd "2024-01" = None
  /\ strptime_ymd "2024" = None
  /\ strptime_ymd "2024-01-311" = None
  /\ strptime_ymd "0000-01-01" = None
  /\ strptime_ymd "2024-13-01" = None.
Proof. repeat split; reflexivity. Qed.

Example ymd2ord_ok : ymd2ord 1 1 1 = 1 /\ ymd2ord 2024 1 10 = 738895.
Proof. split; reflexivity. Qed.

(** Thirty-six hours to the microsecond are inside the window, one
    microsecond more is outside. *)
Example window_edge :
  within_window (DateTime 2024 1 11 0 0 0 0) (DateTime 2024 1 9 12 0 0 0) 36 = true
  /\ within_window (DateTime 2024 1 11 0 0 0 1) (DateTime 2024 1 9 12 0 0 0) 36 = false
  /\ hours_since (DateTime 2024 1 10 18 0 0 0) (DateTime 2024 1 9 12 0 0 0)
     = float_of_int 30.
Proof. repeat split; vm_compute; reflexivity. Qed.

(** ** The environment reader *)

Lemma env_missing W name h :
  missing W name = true -> env W name h = (Raise (RuntimeError (missing_line name)), h).
Proof.
  unfold missing, env, missing_line.
  destruct (environ W !! name) as [v|]; [|reflexivity].
  intros ->. reflexivity.
Qed.

Lemma env_present W name h :
  missing W name = false -> exists v, env W name h = (Ok v, h).
Proof.
  unfold missing, env.
  destruct (environ W !! name) as [v|]; [|discriminate].
  intros ->. by exists v.
Qed.

(** C10: a variable set to the empty string is read exactly like a variable
    that is not set: [env] raises the missing-variable [RuntimeError]. *)
Theorem env_empty_value_is_missing (W : Env) (name : string) (h : history) :
  env (with_environ W (<[name := ""]> (environ W))) name h
    = (Raise (RuntimeError ("Missing environment variable: " +:+ name)), h)
  /\ env (with_environ W (<[name := ""]> (environ W))) name h
    = env (with_environ W (delete name (environ W))) name h.
Proof.
  unfold env; simpl.
  rewrite lookup_insert_eq, lookup_delete_eq. simpl. done.
Qed.

(** ** Configuration errors *)

(** With a credential missing, the token exchange stops at the first
    missing one, before anything is sent. *)
Lemma get_access_token_missing W h name :
  In name CREDENTIALS -> missing W name = true ->
  exists n, In n CREDENTIALS /\ missing W n = true
    /\ get_access_token W h = (Raise (RuntimeError (missing_line n)), h).
Proof.
  intros Hin Hmiss. unfold get_access_token.
  destruct (missing W "SPOTIFY_CLIENT_ID") eqn:E1.
  { exists "SPOTIFY_CLIENT_ID". repeat split; [simpl; tauto | done |].
    by rewrite (bind_raise _ _ _ _ _ (env_missing _ _ h E1)). }
  destruct (env_present _ _ h E1) as [v1 H1]. rewrite (bind_ok _ _ _ _ _ H1).
  destruct (missing W "SPOTIFY_CLIENT_SECRET") eqn:E2.
  { exists "SPOTIFY_CLIENT_SECRET". repeat split; [simpl; tauto | done |].
    by rewrite (bind_raise _ _ _ _ _ (env_missing _ _ h E2)). }
  destruct (env_present _ _ h E2) as [v2 H2]. rewrite (bind_ok _ _ _ _ _ H2).
  destruct (missing W "SPOTIFY_REFRESH_TOKEN") eqn:E3.
  { exists "SPOTIFY_REFRESH_TOKEN". repeat split; [simpl; tauto | done |].
    by rewrite (bind_raise _ _ _ _ _ (env_missing _ _ h E3)). }
  exfalso. simpl in Hin.
  destruct Hin as [<-|[<-|[<-|[]]]]; congruence.
Qed.

(** With the three credentials present, the token exchange sends exactly one
    request, whatever comes back. *)
Lemma get_access_token_sends W h :
  (forall n, In n CREDENTIALS -> missing W n = false) ->
  exists c d r, get_access_token W h = (r, h ++ [Sent (TokenPost c d)]).
Proof.
  intros Hall. unfold get_access_token.
  destruct (env_present W "SPOTIFY_CLIENT_ID" h) as [v1 H1]; [apply Hall; simpl; tauto|].
  destruct (env_present W "SPOTIFY_CLIENT_SECRET" h) as [v2 H2]; [apply Hall; simpl; tauto|].
  destruct (env_present W "SPOTIFY_REFRESH_TOKEN" h) as [v3 H3]; [apply Hall; simpl; tauto|].
  rewrite (bind_ok _ _ _ _ _ H1), (bind_ok _ _ _ _ _ H2), (bind_ok _ _ _ _ _ H3).
  eexists _, _. unfold bind, send.
  destruct (server W h _) as [|resp]; [by eexists|].
  unfold raise_for_status, raise, ret.
  destruct (_ && _); [by eexists|].
  unfold resp_json, raise, ret, lift.
  destruct (json_body resp) as [j|]; [|by eexists].
  destruct (py_getitem j "access_token"); by eexists.
Qed.

(** C8 (as stated, refuted): with only the user identifier missing, the run
    aborts after the token request has been sent, so it is not true of every
    required value that no network call precedes the abort. *)
Lemma user_id_read_after_token_call :
  missing W_no_user "SPOTIFY_USER_ID" = true
  /\ main W_no_user 1 []
     = (Raise (RuntimeError "Missing environment variable: SPOTIFY_USER_ID"),
        [Sent (TokenPost "id:secret"
                 [("grant_type", "refresh_token"); ("refresh_token", "refresh")])])
  /\ ~ aborts_before_any_call W_no_user 1.
Proof.
  assert (Hrun : main W_no_user 1 []
     = (Raise (RuntimeError "Missing environment variable: SPOTIFY_USER_ID"),
        [Sent (TokenPost "id:secret"
                 [("grant_type", "refresh_token"); ("refresh_token", "refresh")])]))
    by (vm_compute; reflexivity).
  split; [vm_compute; reflexivity|]. split; [exact Hrun|].
  intros [msg Hmsg]. rewrite Hrun in Hmsg. discriminate.
Qed.

(** C8 (amended): a missing required value always aborts the run.  For the
    three credentials the abort is the missing-variable error and comes
    before anything is sent.  The user identifier is read after the token
    exchange: the history then holds at most the token request, and when the
    exchange succeeded the abort is the missing-variable error for it. *)
Theorem missing_value_aborts (W : Env) (fuel : nat) (h : history) (name : string) :
  In name REQUIRED -> missing W name = true ->
  exists e h', main W fuel h = (Raise e, h')
    /\ (name <> "SPOTIFY_USER_ID" ->
        h' = h /\ exists n, In n CREDENTIALS /\ missing W n = true
                            /\ e = RuntimeError (missing_line n))
    /\ (name = "SPOTIFY_USER_ID" ->
        (h' = h \/ exists c d, h' = h ++ [Sent (TokenPost c d)])
        /\ forall token h1, get_access_token W h = (Ok token, h1) ->
             e = RuntimeError (missing_line "SPOTIFY_USER_ID") /\ h' = h1).
Proof.
  intros Hin Hmiss. unfold main.
  destruct (decide (name = "SPOTIFY_USER_ID")) as [->|Hne].
  - (* the user identifier *)
    destruct (forallb (fun n => negb (missing W n)) CREDENTIALS) eqn:Hcred.
    + assert (Hall : forall n, In n CREDENTIALS -> missing W n = false).
      { intros n Hn. rewrite forallb_forall in Hcred.
        specialize (Hcred n Hn). by destruct (missing W n). }
      destruct (get_access_token_sends W h Hall) as (c & d & r & Hr).
      destruct r as [token|e|].
      * rewrite (bind_ok _ _ _ _ _ Hr).
        rewrite (bind_raise _ _ _ _ _ (env_missing _ _ _ Hmiss)).
        eexists _, _. split; [reflexivity|]. split; [done|].
        intros _. split; [right; eauto|].
        intros token' h1 Heq. rewrite Hr in Heq. by inversion Heq.
      * rewrite (bind_raise _ _ _ _ _ Hr).
        eexists _, _. split; [reflexivity|]. split; [done|].
        intros _. split; [right; eauto|]. intros token' h1 Heq.
        rewrite Hr in Heq. discriminate.
      * exfalso. revert Hr. unfold get_access_token.
        destruct (env_present W "SPOTIFY_CLIENT_ID" h) as [v1 H1]; [apply Hall; simpl; tauto|].
        destruct (env_present W "SPOTIFY_CLIENT_SECRET" h) as [v2 H2]; [apply Hall; simpl; tauto|].
        destruct (env_present W "SPOTIFY_REFRESH_TOKEN" h) as [v3 H3]; [apply Hall; simpl; tauto|].
        rewrite (bind_ok _ _ _ _ _ H1), (bind_ok _ _ _ _ _ H2), (bind_ok _ _ _ _ _ H3).
        unfold bind, send. destruct (server W h _) as [|resp]; [discriminate|].
        unfold raise_for_status, raise, ret. destruct (_ && _); [discriminate|].
        unfold resp_json, raise, ret, lift.
        destruct (json_body resp) as [j|]; [|discriminate].
        unfold py_getitem. destruct j; try discriminate.
        destruct (assoc _ _); discriminate.
    + assert (Hex : exists n, In n CREDENTIALS /\ missing W n = true).
      { unfold CREDENTIALS in *. simpl in Hcred.
        destruct (missing W "SPOTIFY_CLIENT_ID") eqn:E1; [exists "SPOTIFY_CLIENT_ID"; simpl; tauto|].
        destruct (missing W "SPOTIFY_CLIENT_SECRET") eqn:E2; [exists "SPOTIFY_CLIENT_SECRET"; simpl; tauto|].
        destruct (missing W "SPOTIFY_REFRESH_TOKEN") eqn:E3; [exists "SPOTIFY_REFRESH_TOKEN"; simpl; tauto|].
        discriminate. }
      destruct Hex as (n & Hn & Hmn).
      destruct (get_access_token_missing W h n Hn Hmn) as (n' & Hn' & Hmn' & Hr).
      rewrite (bind_raise _ _ _ _ _ Hr).
      eexists _, _. split; [reflexivity|]. split; [done|].
      intros _. split; [by left|]. intros token h1 Heq.
      rewrite Hr in Heq. discriminate.
  - (* one of the credentials *)
    assert (Hc : In name CREDENTIALS).
    { unfold REQUIRED in Hin. apply in_app_or in Hin as [Hc|[<-|[]]]; [done|congruence]. }
    destruct (get_access_token_missing W h name Hc Hmiss) as (n & Hn & Hmn & Hr).
    rewrite (bind_raise _ _ _ _ _ Hr).
    eexists _, _. split; [reflexivity|]. split; [|done].
    intros _. split; [done|]. eauto.
Qed.

Lemma missing_value_aborts_witness :
  In "SPOTIFY_USER_ID" REQUIRED
  /\ missing W_no_user "SPOTIFY_USER_ID" = true
  /\ exists e h', main W_no_user 1 [] = (Raise e, h').
Proof.
  split; [simpl; tauto|]. split; [vm_compute; reflexivity|].
  destruct (missing_value_aborts W_no_user 1 [] "SPOTIFY_USER_ID")
    as (e & h' & Hrun & _).
  - simpl; tauto.
  - vm_compute; reflexivity.
  - by exists e, h'.
Defined.


(** ** The freshness selector *)

Lemma api_get_answers W p token params h data :
  answers W h (ApiGet p token params) data ->
  api_get W p token params h = (Ok data, h ++ [Sent (ApiGet p token params)]).
Proof.
  intros (resp & Hs & Hok & Hj). unfold api_get, bind, send. rewrite Hs.
  unfold raise_for_status, ok_status in *.
  destruct (_ && _); [discriminate|]. unfold ret, resp_json. by rewrite Hj.
Qed.

Lemma strptime_nonempty s d : strptime_ymd s = Some d -> truthy (JStr s) = true.
Proof. by destruct s. Qed.

Lemma first_fresh_passed_over now fresh_hours before rest :
  forallb (passed_over now fresh_hours) before = true ->
  first_fresh now fresh_hours (before ++ rest) = first_fresh now fresh_hours rest.
Proof.
  induction before as [|ep before IH]; [done|].
  simpl. rewrite andb_true_iff. intros [Hep Hrest].
  rewrite <- (IH Hrest). clear IH Hrest.
  destruct ep as [| | | | |l|kvs]; try discriminate. simpl in *.
  destruct (assoc "release_date" kvs) as [v|]; [|done].
  destruct (truthy v); [|done]. simpl.
  destruct v; try discriminate.
  destruct (strptime_ymd s); [|done].
  by destruct (within_window _ _ _).
Qed.

Lemma first_fresh_none now fresh_hours episodes :
  forallb (passed_over now fresh_hours) episodes = true ->
  first_fresh now fresh_hours episodes = Ok None.
Proof.
  intros H. rewrite <- (app_nil_r episodes).
  by rewrite first_fresh_passed_over.
Qed.

Lemma first_fresh_hit now fresh_hours episode rest s d uri :
  py_get episode "release_date" JNull = Ok (JStr s) ->
  strptime_ymd s = Some d ->
  within_window now (at_noon d) fresh_hours = true ->
  py_getitem episode "uri" = Ok uri ->
  first_fresh now fresh_hours (episode :: rest) = Ok (Some uri).
Proof.
  intros Hrd Hs Hw Huri. cbn [first_fresh]. rewrite Hrd. cbn [rbind].
  rewrite (strptime_nonempty _ _ Hs). cbn [negb]. by rewrite Hs, Hw, Huri.
Qed.

(** What the selector does once the listing arrived and is a non-empty
    list: the loop decides, the first episode is the fall-back. *)
Lemma selector_on_listing W token show_id fresh_hours h data first rest :
  answers W h (episodes_request token show_id) data ->
  py_get data "items" (JArr []) = Ok (JArr (first :: rest)) ->
  let h' := h ++ [Sent (episodes_request token show_id)] in
  get_latest_fresh_episode_uri W token show_id fresh_hours h
  = (match first_fresh (utcnow W h') fresh_hours (first :: rest) with
     | Ok (Some uri) => Ok uri
     | Ok None => py_getitem first "uri"
     | Raise e => Raise e
     | OutOfFuel => OutOfFuel
     end, h').
Proof.
  intros Hans Hitems h'. unfold get_latest_fresh_episode_uri.
  rewrite (bind_ok _ _ _ _ _ (api_get_answers _ _ _ _ _ _ Hans)).
  fold (episodes_request token show_id). fold h'.
  unfold bind at 1. unfold lift at 1. rewrite Hitems.
  cbn [truthy negb]. unfold bind, lift. cbn [py_iter py_getitem0].
  by destruct (first_fresh _ _ _) as [[uri|]|e|].
Qed.

(** C2: when the listing is a non-empty list and the loop passes over every
    episode of it (release date missing, unparseable, or older than the
    window), the selector returns the URI of the first listed episode. *)
Theorem stale_listing_falls_back_to_first
    (W : Env) (token show_id : json) (fresh_hours : Z) (h : history)
    (data first : json) (rest : list json) (uri : json) :
  answers W h (episodes_request token show_id) data ->
  py_get data "items" (JArr []) = Ok (JArr (first :: rest)) ->
  forallb (passed_over (utcnow W (h ++ [Sent (episodes_request token show_id)]))
             fresh_hours) (first :: rest) = true ->
  py_getitem first "uri" = Ok uri ->
  get_latest_fresh_episode_uri W token show_id fresh_hours h
  = (Ok uri, h ++ [Sent (episodes_request token show_id)]).
Proof.
  intros Hans Hitems Hstale Huri.
  rewrite (selector_on_listing _ _ _ _ _ _ _ _ Hans Hitems).
  by rewrite (first_fresh_none _ _ _ Hstale), Huri.
Qed.

Lemma stale_listing_falls_back_to_first_witness :
  get_latest_fresh_episode_uri W_stale (JStr "token") (JStr "show") 36 []
  = (Ok (JStr "ep1"), [Sent (episodes_request (JStr "token") (JStr "show"))]).
Proof.
  apply (stale_listing_falls_back_to_first W_stale (JStr "token") (JStr "show") 36 []
           (listing [episode_entry "2023-12-01" "ep1"; episode_entry "2023-11-20" "ep2";
                     episode_entry "2023-11-01" "ep3"])
           (episode_entry "2023-12-01" "ep1")
           [episode_entry "2023-11-20" "ep2"; episode_entry "2023-11-01" "ep3"]).
  - eexists. split; [reflexivity|]. split; reflexivity.
  - reflexivity.
  - vm_compute; reflexivity.
  - reflexivity.
Defined.

(** *** Signs of binary64 quotients *)

Lemma iter_pos_inv {A} (P : A -> Prop) (f : A -> A) :
  (forall x, P x -> P (f x)) -> forall p x, P x -> P (SpecFloat.iter_pos f p x).
Proof.
  intros Hf. induction p as [p IH|p IH|]; intros x Hx; simpl; auto.
Qed.

Lemma shr_1_nonneg mrs : 0 <= shr_m mrs -> 0 <= shr_m (shr_1 mrs).
Proof. destruct mrs as [[|[p|p|]|[p|p|]] r s]; simpl; lia. Qed.

Lemma shr_fexp_nonneg m e l : 0 <= m -> 0 <= shr_m (fst (shr_fexp 53 1024 m e l)).
Proof.
  intros Hm. unfold shr_fexp, shr.
  assert (H0 : 0 <= shr_m (shr_record_of_loc m l)) by (by destruct l as [|[]]).
  destruct (_ - e) as [|n|n]; simpl; try done.
  by apply (iter_pos_inv (fun mrs => 0 <= shr_m mrs)), H0; apply shr_1_nonneg.
Qed.

Lemma round_nearest_even_nonneg m l : 0 <= m -> 0 <= round_nearest_even m l.
Proof.
  intros Hm. destruct l as [|[]]; simpl; try lia. destruct (Z.even m); lia.
Qed.

Lemma binary_round_aux_signed s mx ex lx :
  0 <= mx -> signed s (binary_round_aux 53 1024 s mx ex lx).
Proof.
  intros Hm. unfold binary_round_aux.
  pose proof (shr_fexp_nonneg mx ex lx Hm) as H1.
  destruct (shr_fexp 53 1024 mx ex lx) as [mrs' e']. simpl in H1.
  pose proof (shr_fexp_nonneg _ e' loc_Exact
                (round_nearest_even_nonneg _ (loc_of_shr_record mrs') H1)) as H2.
  destruct (shr_fexp 53 1024 _ e' loc_Exact) as [mrs'' e'']. simpl in H2.
  destruct (shr_m mrs'') as [|m|m]; [by left| |lia].
  destruct (e'' <=? _); [right; right; eauto|right; by left].
Qed.

Lemma SFdiv_signed s x my ey :
  signed s x -> signed s (SFdiv 53 1024 x (S754_finite false my ey)).
Proof.
  intros [->|[->|(mx & ex & ->)]]; simpl; rewrite ?xorb_false_r.
  - by left.
  - right; by left.
  - unfold SFdiv_core_binary.
    set (e' := Z.min _ _). set (m' := match _ - e' with Z0 => _ | _ => _ end).
    assert (Hm' : 0 <= m').
    { unfold m'. destruct (_ - e'); [lia| |lia]. by apply Z.shiftl_nonneg. }
    pose proof (Z.div_pos m' (Zpos my) Hm' ltac:(lia)) as Hq.
    unfold Z.div in Hq. destruct (Z.div_eucl m' (Zpos my)) as [q r].
    by apply binary_round_aux_signed.
Qed.

Lemma signed_negative_le x n : signed true x -> 0 <= n -> float_le_int x n = true.
Proof.
  unfold float_le_int, float_cmp_int.
  intros [->|[->|(m & e & ->)]] Hn; [|done|].
  - by destruct (Z.compare_spec 0 n); [..|lia].
  - destruct (0 <=? e) eqn:He.
    + apply Z.leb_le in He. pose proof (Z.pow_pos_nonneg 2 e ltac:(lia) He).
      assert (Hlt : Zneg m * 2 ^ e < n) by nia.
      apply Z.compare_lt_iff in Hlt. by rewrite Hlt.
    + apply Z.leb_gt in He. pose proof (Z.pow_pos_nonneg 2 (- e) ltac:(lia) ltac:(lia)).
      assert (Hlt : Zneg m < n * 2 ^ (- e)) by nia.
      apply Z.compare_lt_iff in Hlt. by rewrite Hlt.
Qed.

Lemma signed_negative_sign x : signed true x -> negative_sign x = true.
Proof. by intros [->|[->|(m & e & ->)]]. Qed.

(** *** The freshness test *)

Lemma hours_since_boundary now release_dt fresh_hours :
  float_cmp_int (hours_since now release_dt) fresh_hours = Some Eq ->
  within_window now release_dt fresh_hours = true.
Proof. unfold within_window, float_le_int. by intros ->. Qed.

Lemma all_upto_spec f n :
  all_upto f n = true -> forall z, 0 <= z <= Z.of_nat n -> f z = true.
Proof.
  induction n as [|k IH]; intros Hall z Hz.
  - simpl in *. by replace z with 0 by lia.
  - cbn [all_upto] in Hall. apply andb_true_iff in Hall as [Hn Hk].
    destruct (Z.eq_dec z (Z.of_nat (S k))) as [->|Hne]; [done|].
    apply IH; [done|lia].
Qed.

(** An elapsed time of a whole number of hours, up to ten thousand, is
    computed exactly: the two divisions lose nothing. *)
Lemma whole_hours_are_exact now release_dt n :
  0 <= n <= 10000 ->
  timedelta_us now release_dt = n * 3600 * 1000000 ->
  float_cmp_int (hours_since now release_dt) n = Some Eq.
Proof.
  intros Hn Hus. unfold hours_since. rewrite Hus. clear Hus.
  assert (Hall : all_upto whole_hours_exact (Z.to_nat 10000) = true)
    by (vm_compute; reflexivity).
  assert (Hz : 0 <= n <= Z.of_nat (Z.to_nat 10000)) by (rewrite Z2Nat.id; lia).
  pose proof (all_upto_spec _ _ Hall n Hz) as Hexact. clear Hall Hz.
  unfold whole_hours_exact in Hexact.
  destruct (float_cmp_int _ n) as [[| |]|]; [reflexivity|discriminate..].
Qed.

Lemma hours_since_negative now release_dt :
  timedelta_us now release_dt < 0 -> signed true (hours_since now release_dt).
Proof.
  intros H. unfold hours_since, float_div_int, total_seconds, int_truediv.
  destruct (timedelta_us now release_dt) as [|p|p]; try lia.
  change (float_of_int 3600) with (S754_finite false 7916483719987200 (-41)).
  change (exact_int 1000000) with (S754_finite false 1000000 0).
  apply SFdiv_signed, SFdiv_signed. right; right. by exists p, 0.
Qed.

Lemma future_release_within_window now release_dt fresh_hours :
  0 <= fresh_hours -> timedelta_us now release_dt < 0 ->
  within_window now release_dt fresh_hours = true.
Proof.
  intros Hw Hneg. unfold within_window.
  by apply signed_negative_le; [apply hours_since_negative|].
Qed.

(** The selector returns the first episode of the listing that passes the
    freshness test, the ones before it being passed over. *)
Lemma selector_first_qualifying W token show_id fresh_hours h data
    before episode after s d uri :
  answers W h (episodes_request token show_id) data ->
  py_get data "items" (JArr []) = Ok (JArr (before ++ episode :: after)) ->
  let h' := h ++ [Sent (episodes_request token show_id)] in
  forallb (passed_over (utcnow W h') fresh_hours) before = true ->
  py_get episode "release_date" JNull = Ok (JStr s) ->
  strptime_ymd s = Some d ->
  within_window (utcnow W h') (at_noon d) fresh_hours = true ->
  py_getitem episode "uri" = Ok uri ->
  get_latest_fresh_episode_uri W token show_id fresh_hours h = (Ok uri, h').
Proof.
  intros Hans Hitems h' Hbefore Hrd Hs Hw Huri.
  destruct (before ++ episode :: after) as [|first rest] eqn:Heq.
  { by destruct before. }
  rewrite (selector_on_listing _ _ _ _ _ _ _ _ Hans Hitems). fold h'.
  rewrite <- Heq, (first_fresh_passed_over _ _ _ _ Hbefore).
  by rewrite (first_fresh_hit _ _ _ _ _ _ _ Hrd Hs Hw Huri).
Qed.

(** C3: an episode whose elapsed hours, counted from its release date at
    noon UTC, equal the freshness window exactly passes the freshness test
    (the comparison is [<=]), and the selector returns it when every episode
    listed before it is passed over. *)
Theorem boundary_episode_is_selected
    (W : Env) (token show_id : json) (fresh_hours : Z) (h : history) (data : json)
    (before : list json) (episode : json) (after : list json)
    (s : string) (d : datetime) (uri : json) :
  answers W h (episodes_request token show_id) data ->
  py_get data "items" (JArr []) = Ok (JArr (before ++ episode :: after)) ->
  forallb (passed_over (utcnow W (h ++ [Sent (episodes_request token show_id)])) fresh_hours) before = true ->
  py_get episode "release_date" JNull = Ok (JStr s) ->
  strptime_ymd s = Some d ->
  float_cmp_int (hours_since (utcnow W (h ++ [Sent (episodes_request token show_id)]))
                              (at_noon d)) fresh_hours = Some Eq ->
  py_getitem episode "uri" = Ok uri ->
  within_window (utcnow W (h ++ [Sent (episodes_request token show_id)])) (at_noon d) fresh_hours = true
  /\ get_latest_fresh_episode_uri W token show_id fresh_hours h = (Ok uri, h ++ [Sent (episodes_request token show_id)]).
Proof.
  intros Hans Hitems Hbefore Hrd Hs Hexact Huri.
  pose proof (hours_since_boundary _ _ _ Hexact) as Hw.
  split; [exact Hw|].
  by apply (selector_first_qualifying W token show_id fresh_hours h data
              before episode after s d uri).
Qed.

Lemma boundary_episode_is_selected_witness :
  timedelta_us (DateTime 2024 1 11 0 0 0 0) (DateTime 2024 1 9 12 0 0 0)
    = 36 * 3600 * 1000000
  /\ within_window (DateTime 2024 1 11 0 0 0 0) (DateTime 2024 1 9 12 0 0 0) 36 = true
  /\ get_latest_fresh_episode_uri W_boundary (JStr "token") (JStr "show") 36 []
     = (Ok (JStr "ep1"), [Sent (episodes_request (JStr "token") (JStr "show"))]).
Proof.
  split; [reflexivity|].
  apply (boundary_episode_is_selected W_boundary (JStr "token") (JStr "show") 36 []
           (listing [episode_entry "2024-01-09" "ep1"; episode_entry "2024-01-08" "ep2"])
           [] (episode_entry "2024-01-09" "ep1") [episode_entry "2024-01-08" "ep2"]
           "2024-01-09" (DateTime 2024 1 9 0 0 0 0) (JStr "ep1")).
  - eexists. split; [reflexivity|]. split; reflexivity.
  - reflexivity.
  - reflexivity.
  - reflexivity.
  - reflexivity.
  - vm_compute; reflexivity.
  - reflexivity.
Defined.

(** C9: with a non-negative window, an episode whose release date at noon
    UTC is later than the current time has elapsed hours of negative sign
    and passes the freshness test; the selector returns it when every
    episode listed before it is passed over. *)
Theorem future_episode_is_selected
    (W : Env) (token show_id : json) (fresh_hours : Z) (h : history) (data : json)
    (before : list json) (episode : json) (after : list json)
    (s : string) (d : datetime) (uri : json) :
  0 <= fresh_hours ->
  answers W h (episodes_request token show_id) data ->
  py_get data "items" (JArr []) = Ok (JArr (before ++ episode :: after)) ->
  forallb (passed_over (utcnow W (h ++ [Sent (episodes_request token show_id)])) fresh_hours) before = true ->
  py_get episode "release_date" JNull = Ok (JStr s) ->
  strptime_ymd s = Some d ->
  timedelta_us (utcnow W (h ++ [Sent (episodes_request token show_id)])) (at_noon d) < 0 ->
  py_getitem episode "uri" = Ok uri ->
  negative_sign (hours_since (utcnow W (h ++ [Sent (episodes_request token show_id)]))
                              (at_noon d)) = true
  /\ within_window (utcnow W (h ++ [Sent (episodes_request token show_id)])) (at_noon d) fresh_hours = true
  /\ get_latest_fresh_episode_uri W token show_id fresh_hours h = (Ok uri, h ++ [Sent (episodes_request token show_id)]).
Proof.
  intros Hwin Hans Hitems Hbefore Hrd Hs Hfuture Huri.
  pose proof (future_release_within_window _ _ _ Hwin Hfuture) as Hw.
  split; [by apply signed_negative_sign, hours_since_negative|]. split; [exact Hw|].
  by apply (selector_first_qualifying W token show_id fresh_hours h data
              before episode after s d uri).
Qed.

Lemma future_episode_is_selected_witness :
  negative_sign (hours_since (DateTime 2024 1 10 8 0 0 0) (DateTime 2024 1 10 12 0 0 0))
    = true
  /\ within_window (DateTime 2024 1 10 8 0 0 0) (DateTime 2024 1 10 12 0 0 0) 0 = true
  /\ get_latest_fresh_episode_uri W_future (JStr "token") (JStr "show") 0 []
     = (Ok (JStr "ep1"), [Sent (episodes_request (JStr "token") (JStr "show"))]).
Proof.
  apply (future_episode_is_selected W_future (JStr "token") (JStr "show") 0 []
           (listing [episode_entry "2024" "ep0"; episode_entry "2024-01-10" "ep1"])
           [episode_entry "2024" "ep0"] (episode_entry "2024-01-10" "ep1") []
           "2024-01-10" (DateTime 2024 1 10 0 0 0 0) (JStr "ep1")).
  - lia.
  - eexists. split; [reflexivity|]. split; reflexivity.
  - reflexivity.
  - vm_compute; reflexivity.
  - reflexivity.
  - reflexivity.
  - vm_compute; reflexivity.
  - reflexivity.
Defined.

(** C7: window 36 hours, current time 2024-01-10T12:00:00Z, a listing of
    three episodes released 2024-01-09, 2024-01-08 and 2024-01-05: the
    elapsed hours are 24, 48 and 120, and the selector returns the URI of
    the 2024-01-09 episode. *)
Theorem scenario_one_episode_in_window
    (W : Env) (token show_id : json) (h : history) (data : json)
    (e1 e2 e3 : json) (uri : json) :
  answers W h (episodes_request token show_id) data ->
  utcnow W (h ++ [Sent (episodes_request token show_id)]) = scenario_now ->
  py_get data "items" (JArr []) = Ok (JArr [e1; e2; e3]) ->
  py_get e1 "release_date" JNull = Ok (JStr "2024-01-09") ->
  py_get e2 "release_date" JNull = Ok (JStr "2024-01-08") ->
  py_get e3 "release_date" JNull = Ok (JStr "2024-01-05") ->
  py_getitem e1 "uri" = Ok uri ->
  (exists r1 r2 r3,
      at_noon <$> strptime_ymd "2024-01-09" = Some r1
      /\ at_noon <$> strptime_ymd "2024-01-08" = Some r2
      /\ at_noon <$> strptime_ymd "2024-01-05" = Some r3
      /\ hours_since scenario_now r1 = float_of_int 24
      /\ hours_since scenario_now r2 = float_of_int 48
      /\ hours_since scenario_now r3 = float_of_int 120
      /\ within_window scenario_now r1 36 = true
      /\ within_window scenario_now r2 36 = false
      /\ within_window scenario_now r3 36 = false)
  /\ get_latest_fresh_episode_uri W token show_id 36 h = (Ok uri, h ++ [Sent (episodes_request token show_id)]).
Proof.
  intros Hans Hnow Hitems H1 H2 H3 Huri. split.
  - eexists _, _, _. repeat split; vm_compute; reflexivity.
  - apply (selector_first_qualifying W token show_id 36 h data
             [] e1 [e2; e3] "2024-01-09" (DateTime 2024 1 9 0 0 0 0) uri);
      try done.
    by rewrite Hnow.
Qed.

Lemma scenario_one_episode_in_window_witness :
  get_latest_fresh_episode_uri W_scenario (JStr "token") (JStr "show") 36 []
  = (Ok (JStr "ep1"), [Sent (episodes_request (JStr "token") (JStr "show"))]).
Proof.
  apply (scenario_one_episode_in_window W_scenario (JStr "token") (JStr "show") []
           (listing [episode_entry "2024-01-09" "ep1"; episode_entry "2024-01-08" "ep2";
                     episode_entry "2024-01-05" "ep3"])
           (episode_entry "2024-01-09" "ep1") (episode_entry "2024-01-08" "ep2")
           (episode_entry "2024-01-05" "ep3") (JStr "ep1")).
  - eexists. split; [reflexivity|]. split; reflexivity.
  - reflexivity.
  - reflexivity.
  - reflexivity.
  - reflexivity.
  - reflexivity.
  - reflexivity.
Defined.

(** ** Shows without episodes *)

(** C6: when the episode listing of a show holds no episode (its "items" is
    absent, an empty list, or otherwise falsy), the selector returns [None],
    and [add_latest] leaves the accumulated list and the seen-set as they
    were, without raising. *)
Theorem empty_listing_contributes_nothing
    (W : Env) (token : json) (show_query : string) (show_id : json) (a : acc)
    (h0 h : history) (data items : json) :
  search_show_id W token show_query h0 = (Ok show_id, h) ->
  truthy show_id = true ->
  answers W h (episodes_request token show_id) data ->
  py_get data "items" (JArr []) = Ok items ->
  truthy items = false ->
  (forall fresh_hours,
      get_latest_fresh_episode_uri W token show_id fresh_hours h
      = (Ok JNull, h ++ [Sent (episodes_request token show_id)]))
  /\ add_latest W token show_query a h0
     = (Ok a, h ++ [Sent (episodes_request token show_id)]).
Proof.
  intros Hsearch Hshow Hans Hitems Hempty.
  assert (Hsel : forall fresh_hours,
      get_latest_fresh_episode_uri W token show_id fresh_hours h
      = (Ok JNull, h ++ [Sent (episodes_request token show_id)])).
  { intros fresh_hours. unfold get_latest_fresh_episode_uri.
    rewrite (bind_ok _ _ _ _ _ (api_get_answers _ _ _ _ _ _ Hans)).
    unfold bind at 1. unfold lift at 1. rewrite Hitems, Hempty. reflexivity. }
  split; [exact Hsel|].
  unfold add_latest. destruct a as [episode_uris seen].
  rewrite (bind_ok _ _ _ _ _ Hsearch), Hshow. cbn [negb].
  by rewrite (bind_ok _ _ _ _ _ (Hsel FRESH_HOURS)).
Qed.

Lemma empty_listing_contributes_nothing_witness :
  (forall fresh_hours,
      get_latest_fresh_episode_uri W_empty (JStr "token") (JStr "Ao Ponto") fresh_hours
        [Sent (search_request (JStr "token") "Ao Ponto")]
      = (Ok JNull, [Sent (search_request (JStr "token") "Ao Ponto");
                    Sent (episodes_request (JStr "token") (JStr "Ao Ponto"))]))
  /\ add_latest W_empty (JStr "token") "Ao Ponto" ([JStr "ep0"], [JStr "ep0"]) []
     = (Ok ([JStr "ep0"], [JStr "ep0"]),
        [Sent (search_request (JStr "token") "Ao Ponto");
         Sent (episodes_request (JStr "token") (JStr "Ao Ponto"))]).
Proof.
  apply (empty_listing_contributes_nothing W_empty (JStr "token") "Ao Ponto" (JStr "Ao Ponto")
           ([JStr "ep0"], [JStr "ep0"]) []
           [Sent (search_request (JStr "token") "Ao Ponto")]
           (listing []) (JArr [])).
  - reflexivity.
  - reflexivity.
  - eexists. split; [reflexivity|]. split; reflexivity.
  - reflexivity.
  - reflexivity.
Defined.

(** ** What a run may add to the history *)

Lemma quiet_ret {A} (a : A) : quiet (ret a).
Proof. intros h r h' [= <- <-]. exists []. by rewrite app_nil_r. Qed.

Lemma quiet_raise {A} e : quiet (@raise A e).
Proof. intros h r h' [= <- <-]. exists []. by rewrite app_nil_r. Qed.

Lemma quiet_lift {A} (x : result A) : quiet (lift x).
Proof. intros h r h' [= <- <-]. exists []. by rewrite app_nil_r. Qed.

Lemma quiet_bind {A B} (m : M A) (f : A -> M B) :
  quiet m -> (forall a, quiet (f a)) -> quiet (bind m f).
Proof.
  intros Hm Hf h r h'. unfold bind.
  destruct (m h) as [[a|e|] h1] eqn:E; destruct (Hm _ _ _ E) as (evs & -> & Hevs).
  - intros Hfa. destruct (Hf _ _ _ _ Hfa) as (evs' & -> & Hevs').
    exists (evs ++ evs'). split; [by rewrite app_assoc|]. by apply Forall_app.
  - intros [= <- <-]. eauto.
  - intros [= <- <-]. eauto.
Qed.

Lemma quiet_emit e : is_write e = false -> quiet (emit e).
Proof. intros He h r h' [= <- <-]. exists [e]. split; [done|]. by constructor. Qed.

Lemma quiet_send W r : is_write (Sent r) = false -> quiet (send W r).
Proof.
  intros He h x h'. unfold send.
  destruct (server W h r); intros [= <- <-]; exists [Sent r]; split; try done;
    by constructor.
Qed.

Lemma quiet_clock W : quiet (fun h => (Ok (utcnow W h), h)).
Proof. intros h r h' [= <- <-]. exists []. by rewrite app_nil_r. Qed.

Create HintDb quiet.
#[local] Hint Resolve quiet_ret quiet_raise quiet_lift quiet_emit quiet_send quiet_clock : quiet.

Ltac quiet_step :=
  match goal with
  | |- quiet (bind _ _) => apply quiet_bind; [|intros ?]
  | |- quiet (if ?b then _ else _) => destruct b
  | |- quiet (match ?x with _ => _ end) => destruct x
  | |- quiet _ => solve [auto with quiet]
  end.

Lemma quiet_env W name : quiet (env W name).
Proof. unfold env. repeat quiet_step. Qed.

Lemma quiet_raise_for_status resp : quiet (raise_for_status resp).
Proof. unfold raise_for_status. repeat quiet_step. Qed.

Lemma quiet_resp_json resp : quiet (resp_json resp).
Proof. unfold resp_json. repeat quiet_step. Qed.

Lemma quiet_json_or_empty resp : quiet (json_or_empty resp).
Proof. unfold json_or_empty. pose proof quiet_resp_json. repeat quiet_step. Qed.

#[local] Hint Resolve quiet_env quiet_raise_for_status quiet_resp_json quiet_json_or_empty : quiet.

Lemma quiet_get_access_token W : quiet (get_access_token W).
Proof. unfold get_access_token. repeat quiet_step. Qed.

Lemma quiet_api_get W p token params : quiet (api_get W p token params).
Proof. unfold api_get. repeat quiet_step. Qed.

Lemma quiet_api_post W p token json_data : quiet (api_post W p token json_data).
Proof. unfold api_post. repeat quiet_step. Qed.

#[local] Hint Resolve quiet_get_access_token quiet_api_get quiet_api_post : quiet.

Lemma quiet_find_playlist W fuel token name limit offset :
  quiet (find_playlist W fuel token name limit offset).
Proof.
  revert offset. induction fuel as [|fuel IH]; intros offset; simpl.
  - auto with quiet.
  - repeat quiet_step.
Qed.

#[local] Hint Resolve quiet_find_playlist : quiet.

Lemma quiet_get_or_create_playlist W fuel token user_id name description public :
  quiet (get_or_create_playlist W fuel token user_id name description public).
Proof. unfold get_or_create_playlist. repeat quiet_step. Qed.

Lemma quiet_search_show_id W token query : quiet (search_show_id W token query).
Proof. unfold search_show_id. repeat quiet_step. Qed.

Lemma quiet_selector W token show_id fresh_hours :
  quiet (get_latest_fresh_episode_uri W token show_id fresh_hours).
Proof. unfold get_latest_fresh_episode_uri. repeat quiet_step. Qed.

#[local] Hint Resolve quiet_get_or_create_playlist quiet_search_show_id quiet_selector : quiet.

Lemma quiet_add_latest W token show_query a : quiet (add_latest W token show_query a).
Proof. unfold add_latest. destruct a as [episode_uris seen]. repeat quiet_step. Qed.

#[local] Hint Resolve quiet_add_latest : quiet.

Lemma quiet_add_all W token queries a : quiet (add_all W token queries a).
Proof.
  revert a. induction queries as [|query rest IH]; intros a; simpl.
  - auto with quiet.
  - repeat quiet_step.
Qed.

#[local] Hint Resolve quiet_add_all : quiet.

Lemma quiet_build_episode_list W token : quiet (build_episode_list W token).
Proof. unfold build_episode_list. repeat quiet_step. Qed.

Lemma quiet_prefix {A} (m : M A) h r h' : quiet m -> m h = (r, h') -> h `prefix_of` h'.
Proof. intros Hq Hm. destruct (Hq _ _ _ Hm) as (evs & -> & _). by exists evs. Qed.

(** ** The write step *)

Lemma no_write_filter evs :
  Forall (fun e => is_write e = false) evs -> List.filter is_write evs = [].
Proof.
  induction 1 as [|e evs He _ IH]; [done|]. simpl. by rewrite He.
Qed.

Lemma api_put_sends W p token json_data h :
  exists r, api_put W p token json_data h = (r, h ++ [Sent (ApiPut p token json_data)])
            /\ r <> OutOfFuel.
Proof.
  unfold api_put, bind, send.
  destruct (server W h _) as [|resp]; [by eexists|].
  destruct (_ || _).
  - unfold ret, json_or_empty, resp_json, ret, raise.
    destruct (String.eqb _ _); [by eexists|].
    destruct (json_body resp); by eexists.
  - unfold raise_for_status, raise, ret. destruct (_ && _); [by eexists|].
    unfold json_or_empty, resp_json, ret, raise.
    destruct (String.eqb _ _); [by eexists|].
    destruct (json_body resp); by eexists.
Qed.

(** C4: once the episode list is built, the playlist replacement is sent
    exactly when the list is non-empty.  With an empty list the run ends by
    printing the nothing-fresh line, and no replacement request is among the
    events of the run. *)
Theorem write_iff_list_nonempty
    (W : Env) (fuel : nat) (h h1 h2 h3 : history)
    (token : json) (user_id : string) (playlist_id : json) (uris : list json) :
  get_access_token W h = (Ok token, h1) ->
  env W "SPOTIFY_USER_ID" h1 = (Ok user_id, h1) ->
  get_or_create_playlist W fuel token user_id PLAYLIST_NAME PLAYLIST_DESCRIPTION false h1
    = (Ok playlist_id, h2) ->
  build_episode_list W token h2 = (Ok uris, h3) ->
  (uris = [] -> main W fuel h = (Ok tt, h3 ++ [Printed nothing_fresh_line]))
  /\ (uris <> [] ->
      exists r, main W fuel h
        = (r, h3 ++ Sent (replace_request token playlist_id uris)
                    :: match r with
                       | Ok _ => [Printed (updated_line (length uris))]
                       | _ => []
                       end))
  /\ (exists evs, snd (main W fuel h) = h ++ evs
        /\ List.filter is_write evs
           = match uris with
             | [] => []
             | _ :: _ => [Sent (replace_request token playlist_id uris)]
             end).
Proof.
  intros Htoken Huser Hplaylist Hbuild.
  assert (Hmain : main W fuel h
    = match uris with
      | _ :: _ =>
          (replace_playlist_items W token playlist_id uris;;;
           emit (Printed (updated_line (length uris)))) h3
      | [] => emit (Printed nothing_fresh_line) h3
      end).
  { unfold main.
    rewrite (bind_ok _ _ _ _ _ Htoken), (bind_ok _ _ _ _ _ Huser),
      (bind_ok _ _ _ _ _ Hplaylist), (bind_ok _ _ _ _ _ Hbuild).
    by destruct uris. }
  assert (Hput : uris <> [] ->
      exists r, main W fuel h
        = (r, h3 ++ Sent (replace_request token playlist_id uris)
                    :: match r with
                       | Ok _ => [Printed (updated_line (length uris))]
                       | _ => []
                       end)).
  { intros Hne. rewrite Hmain. destruct uris as [|u uris']; [done|].
    unfold replace_playlist_items, replace_request.
    destruct (api_put_sends W (PlaylistTracks playlist_id) token
                (JObj [("uris", JArr (u :: uris'))]) h3) as (r & Hr & Hfuel).
    unfold bind. rewrite Hr.
    destruct r as [j|e|]; [|by exists (Raise e)|done].
    exists (Ok tt). unfold ret, emit. by rewrite <- app_assoc. }
  split; [by intros ->|]. split; [exact Hput|].
  destruct (quiet_get_access_token W _ _ _ Htoken) as (e1 & -> & He1).
  destruct (quiet_get_or_create_playlist W _ _ _ _ _ _ _ _ _ Hplaylist) as (e2 & -> & He2).
  destruct (quiet_build_episode_list W _ _ _ _ Hbuild) as (e3 & -> & He3).
  assert (Hquiet : List.filter is_write (e1 ++ e2 ++ e3) = []).
  { apply no_write_filter. by repeat apply Forall_app_2. }
  destruct uris as [|u uris'].
  - rewrite Hmain. unfold emit. simpl.
    exists ((e1 ++ e2 ++ e3) ++ [Printed nothing_fresh_line]).
    split; [by rewrite <- !app_assoc|].
    by rewrite List.filter_app, Hquiet.
  - destruct Hput as [r Hr]; [done|]. rewrite Hr. simpl.
    eexists ((e1 ++ e2 ++ e3) ++ _ :: _).
    split; [by rewrite <- !app_assoc|].
    rewrite List.filter_app, Hquiet. simpl. by destruct r.
Qed.

Lemma write_iff_list_nonempty_witness :
  main W_empty 1 [] = (Ok tt, snd (build_episode_list W_empty (JStr "token")
                                      (snd (get_or_create_playlist W_empty 1 (JStr "token") "user"
                                              PLAYLIST_NAME PLAYLIST_DESCRIPTION false
                                              (snd (get_access_token W_empty [])))))
                              ++ [Printed nothing_fresh_line])
  /\ exists evs, snd (main W_empty 1 []) = [] ++ evs /\ List.filter is_write evs = [].
Proof.
  edestruct (write_iff_list_nonempty W_empty 1 []) as (Hempty & _ & Hevs).
  - vm_compute; reflexivity.
  - vm_compute; reflexivity.
  - vm_compute; reflexivity.
  - vm_compute; reflexivity.
  - split; [exact (Hempty eq_refl) | exact Hevs].
Defined.

(** A whole run against a catalogue where every show lists the same three
    episodes: the six shows select the same URI, which is written once. *)
Example main_writes_one_episode :
  fst (main W_scenario 1 []) = Ok tt
  /\ List.filter is_write (snd (main W_scenario 1 []))
     = [Sent (replace_request (JStr "token") (JStr "created") [JStr "ep1"])]
  /\ last (snd (main W_scenario 1 []))
     = Some (Printed "Playlist atualizada com 1 episódios.").
Proof. repeat split; vm_compute; reflexivity. Qed.

(** ** The episode list builder *)

Lemma py_eq_refl u : hashable u = true -> py_eq u u = true.
Proof.
  destruct u as [|b|n|q|s|l|kvs]; simpl; try done.
  - by destruct b.
  - intros _. apply Qeq_bool_iff. reflexivity.
  - intros _. apply Qeq_bool_iff. reflexivity.
  - intros _. apply String.eqb_refl.
Qed.

Lemma py_in_not_elem u seen : py_in u seen = Ok false -> u ∉ seen.
Proof.
  unfold py_in. destruct (hashable u) eqn:Hh; [|discriminate].
  intros [= Hex] Hin. apply list_elem_of_In in Hin.
  assert (existsb (py_eq u) seen = true); [|congruence].
  apply existsb_exists. exists u. split; [done|]. by apply py_eq_refl.
Qed.

Lemma yields_weaken W token h h' k k' query uri :
  k `prefix_of` h -> h' `prefix_of` k' ->
  yields W token h h' query uri -> yields W token k k' query uri.
Proof.
  intros Hk Hk' (h0 & h1 & h2 & show_id & Hp & Hp' & Hrest).
  exists h0, h1, h2, show_id. split; [by etrans|]. split; [by etrans|]. done.
Qed.

(** One call of [add_latest] either leaves the accumulator alone or appends
    one URI, new to the seen-set, that the queried show yielded. *)
Lemma add_latest_spec W token show_query episode_uris seen h a' h' :
  add_latest W token show_query (episode_uris, seen) h = (Ok a', h') ->
  a' = (episode_uris, seen)
  \/ exists uri, a' = (episode_uris ++ [uri], seen ++ [uri])
                 /\ py_in uri seen = Ok false
                 /\ yields W token h h' show_query uri.
Proof.
  unfold add_latest, bind, ret, lift, emit.
  destruct (search_show_id W token show_query h) as [[show_id|e|] h1] eqn:Hsearch;
    [|discriminate..].
  destruct (truthy show_id) eqn:Hshow; cbn [negb]. 2:{ intros [= <- Ha]. by left. }
  destruct (get_latest_fresh_episode_uri W token show_id FRESH_HOURS h1)
    as [[uri|e|] h2] eqn:Hsel; [|discriminate..].
  destruct (truthy uri) eqn:Huri; [|intros [= <- Ha]; by left].
  destruct (py_in uri seen) as [[|]|e|] eqn:Hin; [| |discriminate..].
  - intros [= <- Ha]. by left.
  - intros [= <- Ha]. right. exists uri.
    split; [done|]. split; [done|].
    exists h, h1, h2, show_id. split; [done|]. split; [by eexists|]. done.
Qed.

(** The loop over the queries keeps the list and the seen-set equal and free
    of duplicates, and what it appends comes, in order, from a subsequence
    of the queries. *)
Lemma add_all_spec W token queries : forall episode_uris h a' h',
  NoDup episode_uris ->
  add_all W token queries (episode_uris, episode_uris) h = (Ok a', h') ->
  exists added used,
    a' = (episode_uris ++ added, episode_uris ++ added)
    /\ NoDup (episode_uris ++ added)
    /\ used `sublist_of` queries
    /\ Forall2 (yields W token h h') used added.
Proof.
  induction queries as [|query rest IH]; intros episode_uris h a' h' Hnd;
    cbn [add_all].
  - unfold ret. intros [= <- Ha]. exists [], []. rewrite app_nil_r.
    repeat split; [done| |constructor]. constructor.
  - unfold bind.
    destruct (add_latest W token query (episode_uris, episode_uris) h)
      as [[a1|e|] h1] eqn:Hone; [|discriminate..].
    intros Hrest.
    pose proof (quiet_prefix _ _ _ _ (quiet_add_latest W token query _) Hone) as Hp1.
    pose proof (quiet_prefix _ _ _ _ (quiet_add_all W token rest a1) Hrest) as Hp2.
    destruct (add_latest_spec _ _ _ _ _ _ _ _ Hone) as [->|(uri & -> & Hin & Hy)].
    + destruct (IH _ _ _ _ Hnd Hrest) as (added & used & -> & Hnd' & Hsub & Hall).
      exists added, used. repeat split; [done| |].
      * by apply sublist_cons.
      * eapply Forall2_impl; [exact Hall|]. intros q u. by apply yields_weaken.
    + assert (Hnd1 : NoDup (episode_uris ++ [uri])).
      { apply NoDup_app. repeat split; [done| |apply NoDup_singleton].
        intros x Hx ->%list_elem_of_singleton. by apply (py_in_not_elem _ _ Hin). }
      destruct (IH _ _ _ _ Hnd1 Hrest) as (added & used & -> & Hnd' & Hsub & Hall).
      exists (uri :: added), (query :: used).
      rewrite <- !app_assoc in *. simpl in *. repeat split; [done| |].
      * by apply sublist_skip.
      * constructor.
        -- by apply (yields_weaken W token h h1).
        -- eapply Forall2_impl; [exact Hall|]. intros q u. by apply yields_weaken.
Qed.

(** C1: the list [build_episode_list] returns holds every URI at most once,
    its URIs come in order from a subsequence of the configured queries
    (news shows, then sports shows), each being what the show found for that
    query yielded during the run, and it has at most 20 entries. *)
Theorem episode_list_invariant
    (W : Env) (token : json) (h : history) (uris : list json) (h' : history) :
  build_episode_list W token h = (Ok uris, h') ->
  NoDup uris
  /\ (exists queries,
        queries `sublist_of` (NEWS_SHOW_QUERIES ++ SPORTS_SHOW_QUERIES)
        /\ Forall2 (yields W token h h') queries uris)
  /\ (length uris <= 20)%nat.
Proof.
  unfold build_episode_list, bind.
  destruct (add_all W token _ _ h) as [[a|e|] h1] eqn:Hall; [|discriminate..].
  unfold ret. intros [= Ha <-]. subst uris.
  destruct (add_all_spec _ _ _ _ _ _ _ (NoDup_nil_2) Hall)
    as (added & used & -> & Hnd & Hsub & Hy).
  cbn [app fst] in *. split; [|split].
  - exact (sublist_NoDup _ _ Hnd (sublist_take _ _)).
  - exists (take 20 used). split.
    + etrans; [apply sublist_take|done].
    + by apply Forall2_take.
  - rewrite length_take. lia.
Qed.

Lemma episode_list_invariant_witness :
  fst (build_episode_list W_six (JStr "token") [])
    = Ok (map JStr (NEWS_SHOW_QUERIES ++ SPORTS_SHOW_QUERIES))
  /\ NoDup (map JStr (NEWS_SHOW_QUERIES ++ SPORTS_SHOW_QUERIES))
  /\ (length (map JStr (NEWS_SHOW_QUERIES ++ SPORTS_SHOW_QUERIES)) <= 20)%nat.
Proof.
  split; [vm_compute; reflexivity|].
  edestruct (episode_list_invariant W_six (JStr "token") []) as (Hnd & _ & Hlen).
  - vm_compute; reflexivity.
  - split; [exact Hnd | exact Hlen].
Defined.

(** ** The playlist resolver *)

Lemma find_app' {A} (f : A -> bool) l k :
  List.find f (l ++ k)
  = match List.find f l with Some x => Some x | None => List.find f k end.
Proof. induction l as [|x l IH]; [done|]. simpl. by destruct (f x). Qed.

(** On a list of dicts the scan returns the id of the first entry with the
    target name. *)
Lemma scan_playlists_find name l :
  forallb is_dict l = true ->
  scan_playlists name l
  = match List.find (named name) l with
    | Some entry => id <~ py_getitem entry "id";; Ok (Some id)
    | None => Ok None
    end.
Proof.
  induction l as [|entry l IH]; [done|].
  simpl. rewrite andb_true_iff. intros [Hd Hl].
  destruct entry as [| | | | | |kvs]; try discriminate.
  unfold named. simpl.
  destruct (py_eq_str _ name); [done|]. by apply IH.
Qed.

Lemma page_entries_get page l :
  page_entries page = Some l ->
  py_get page "items" (JArr []) = Ok (JArr l)
  /\ exists next, py_get page "next" JNull = Ok next /\ has_next page = truthy next.
Proof.
  unfold page_entries, has_next. destruct page as [| | | | | |kvs]; try discriminate.
  simpl. destruct (assoc "items" kvs) as [[| | | | |l'|]|]; intros [= <-]; eauto.
Qed.

Lemma find_playlist_spec W token name : forall pages fuel h offset,
  serves W token h offset pages ->
  forallb well_formed_page pages = true ->
  chained pages = true ->
  (length pages <= fuel)%nat ->
  match List.find (named name) (entries pages) with
  | Some entry =>
      exists n, (n <= length pages)%nat
        /\ find_playlist W fuel token name 50 offset h
           = (id <~ py_getitem entry "id";; Ok (Some id),
              h ++ page_requests token offset n)
  | None =>
      ends pages = true ->
      find_playlist W fuel token name 50 offset h
      = (Ok None, h ++ page_requests token offset (length pages))
  end.
Proof.
  induction pages as [|page rest IH]; intros fuel h offset Hserves Hwf Hch Hfuel;
    [by simpl in Hch|].
  destruct fuel as [|fuel]; [simpl in Hfuel; lia|].
  destruct Hserves as [Hans Hrest].
  cbn [forallb] in Hwf. apply andb_true_iff in Hwf as [Hpage Hwf].
  unfold well_formed_page in Hpage.
  destruct (page_entries page) as [l|] eqn:Hl; [|discriminate].
  destruct (page_entries_get _ _ Hl) as (Hitems & next & Hnext & Hhas).
  assert (Hstep : find_playlist W (S fuel) token name 50 offset h
    = match List.find (named name) l with
      | Some entry =>
          (id <~ py_getitem entry "id";; Ok (Some id),
           h ++ [Sent (playlists_request token offset)])
      | None =>
          if has_next page
          then find_playlist W fuel token name 50 (offset + 50)
                 (h ++ [Sent (playlists_request token offset)])
          else (Ok None, h ++ [Sent (playlists_request token offset)])
      end).
  { cbn [find_playlist]. fold (playlists_request token offset).
    rewrite (bind_ok _ _ _ _ _ (api_get_answers _ _ _ _ _ _ Hans)).
    unfold bind at 1. unfold lift at 1. rewrite Hitems.
    unfold bind at 1. unfold lift at 1. cbn [py_iter].
    unfold bind at 1. unfold lift at 1. rewrite (scan_playlists_find _ _ Hpage).
    destruct (List.find (named name) l) as [entry|].
    - by destruct (py_getitem entry "id").
    - cbn [rbind]. unfold bind at 1. unfold lift at 1.
      rewrite Hnext, Hhas. by destruct (truthy next). }
  unfold entries. cbn [flat_map]. rewrite Hl.
  rewrite find_app'. fold (entries rest). rewrite Hstep.
  destruct (List.find (named name) l) as [entry|]; cbv beta iota.
  { exists 1%nat. split; [simpl; lia|done]. }
  destruct rest as [|page' rest'].
  - simpl. unfold ends. simpl. intros Hend.
    by destruct (has_next page).
  - cbn [chained] in Hch. apply andb_true_iff in Hch as [Hmore Hch].
    rewrite Hmore.
    assert (Hlen : (length (page' :: rest') <= fuel)%nat) by (simpl in *; lia).
    specialize (IH fuel _ _ Hrest Hwf Hch Hlen).
    destruct (List.find (named name) (entries (page' :: rest'))) as [entry|].
    + destruct IH as (n & Hn & Hrun). exists (S n).
      split; [simpl in *; lia|].
      rewrite Hrun. cbn [page_requests]. by rewrite <- app_assoc.
    + unfold ends. rewrite last_cons_cons. fold (ends (page' :: rest')).
      intros Hend. rewrite (IH Hend).
      cbn [length page_requests]. by rewrite <- app_assoc.
Qed.

Lemma api_post_answers W p token json_data h data :
  answers_with_body W h (ApiPost p token json_data) data ->
  api_post W p token json_data h = (Ok data, h ++ [Sent (ApiPost p token json_data)]).
Proof.
  intros (resp & Hs & Hok & Htext & Hj). unfold api_post, bind, send. rewrite Hs.
  unfold raise_for_status, ok_status in *.
  destruct (_ && _); [discriminate|]. unfold ret, json_or_empty, resp_json.
  destruct (String.eqb_spec (text resp) ""); [done|]. by rewrite Hj.
Qed.

(** C5: for pages of 50 served in sequence, each a dict listing playlist
    dicts and each but the last announcing a next page, the resolver returns
    the id of the first playlist, in pagination order, whose name is exactly
    the target name, sending page requests only; when no playlist has that
    name and the last page announces no next page, it creates a playlist
    with the given name, description and visibility and returns the id the
    server assigned. *)
Theorem resolver_first_match_or_create
    (W : Env) (fuel : nat) (token : json) (user_id name description : string)
    (public : bool) (h : history) (pages : list json) :
  serves W token h 0 pages ->
  forallb well_formed_page pages = true ->
  chained pages = true ->
  (length pages <= fuel)%nat ->
  match List.find (named name) (entries pages) with
  | Some entry =>
      forall id, py_getitem entry "id" = Ok id ->
        exists n, (n <= length pages)%nat
          /\ get_or_create_playlist W fuel token user_id name description public h
             = (Ok id, h ++ page_requests token 0 n)
  | None =>
      ends pages = true ->
      forall created id,
        answers_with_body W (h ++ page_requests token 0 (length pages))
          (create_request token user_id name description public) created ->
        py_getitem created "id" = Ok id ->
        get_or_create_playlist W fuel token user_id name description public h
        = (Ok id, h ++ page_requests token 0 (length pages)
                    ++ [Sent (create_request token user_id name description public)])
  end.
Proof.
  intros Hserves Hwf Hch Hfuel.
  pose proof (find_playlist_spec W token name pages fuel h 0 Hserves Hwf Hch Hfuel)
    as Hspec.
  destruct (List.find (named name) (entries pages)) as [entry|].
  - intros id Hid. destruct Hspec as (n & Hn & Hrun). exists n. split; [done|].
    unfold get_or_create_playlist. rewrite Hid in Hrun.
    by rewrite (bind_ok _ _ _ _ _ Hrun).
  - intros Hend created id Hans Hid.
    unfold get_or_create_playlist. rewrite (bind_ok _ _ _ _ _ (Hspec Hend)).
    fold (create_request token user_id name description public).
    rewrite (bind_ok _ _ _ _ _ (api_post_answers _ _ _ _ _ _ Hans)).
    unfold lift. by rewrite Hid, <- app_assoc.
Qed.

Lemma resolver_first_match_or_create_witness :
  List.find (named PLAYLIST_NAME) (entries two_pages)
    = Some (playlist_entry PLAYLIST_NAME "p4")
  /\ exists n, (n <= 2)%nat
       /\ get_or_create_playlist W_two_pages 5 (JStr "token") "user"
            PLAYLIST_NAME PLAYLIST_DESCRIPTION false []
          = (Ok (JStr "p4"), [] ++ page_requests (JStr "token") 0 n).
Proof.
  split; [vm_compute; reflexivity|].
  pose proof (resolver_first_match_or_create W_two_pages 5 (JStr "token") "user"
                PLAYLIST_NAME PLAYLIST_DESCRIPTION false [] two_pages) as H.
  assert (Hfind : List.find (named PLAYLIST_NAME) (entries two_pages)
                  = Some (playlist_entry PLAYLIST_NAME "p4"))
    by (vm_compute; reflexivity).
  rewrite Hfind in H. apply H.
  - split; [eexists; split; [reflexivity|split; reflexivity]|].
    split; [eexists; split; [reflexivity|split; reflexivity]|exact I].
  - vm_compute; reflexivity.
  - vm_compute; reflexivity.
  - simpl; lia.
  - reflexivity.
Defined.

(** Without a playlist of the target name, the same two pages lead to a
    creation request. *)
Example resolver_creates_when_absent :
  get_or_create_playlist W_two_pages 5 (JStr "token") "user" "Daily" "d" false []
  = (Ok (JStr "created"),
     page_requests (JStr "token") 0 2
     ++ [Sent (create_request (JStr "token") "user" "Daily" "d" false)]).
Proof. vm_compute; reflexivity. Qed.

(** * Further properties *)

(** ** Events a computation may add *)

Lemma emits_ret {A} P (a : A) : emits P (ret a).
Proof. intros h r h' [= <- <-]. exists []. by rewrite app_nil_r. Qed.

Lemma emits_raise {A} P e : emits P (@raise A e).
Proof. intros h r h' [= <- <-]. exists []. by rewrite app_nil_r. Qed.

Lemma emits_lift {A} P (x : result A) : emits P (lift x).
Proof. intros h r h' [= <- <-]. exists []. by rewrite app_nil_r. Qed.

Lemma emits_clock P W : emits P (fun h => (Ok (utcnow W h), h)).
Proof. intros h r h' [= <- <-]. exists []. by rewrite app_nil_r. Qed.

Lemma emits_bind {A B} P (m : M A) (f : A -> M B) :
  emits P m -> (forall a, emits P (f a)) -> emits P (bind m f).
Proof.
  intros Hm Hf h r h'. unfold bind.
  destruct (m h) as [[a|e|] h1] eqn:E; destruct (Hm _ _ _ E) as (evs & -> & Hevs).
  - intros Hfa. destruct (Hf _ _ _ _ Hfa) as (evs' & -> & Hevs').
    exists (evs ++ evs'). split; [by rewrite app_assoc|]. by apply Forall_app.
  - intros [= <- <-]. eauto.
  - intros [= <- <-]. eauto.
Qed.

Lemma emits_emit (P : event -> Prop) e : P e -> emits P (emit e).
Proof. intros He h r h' [= <- <-]. exists [e]. split; [done|]. by constructor. Qed.

Lemma emits_send (P : event -> Prop) W r : P (Sent r) -> emits P (send W r).
Proof.
  intros He h x h'. unfold send.
  destruct (server W h r); intros [= <- <-]; exists [Sent r]; split; try done;
    by constructor.
Qed.

Lemma emits_weaken {A} (P Q : event -> Prop) (m : M A) :
  (forall e, P e -> Q e) -> emits P m -> emits Q m.
Proof.
  intros HPQ Hm h r h' Hrun. destruct (Hm _ _ _ Hrun) as (evs & -> & Hevs).
  exists evs. split; [done|]. eapply Forall_impl; eauto.
Qed.

Ltac emits_step :=
  match goal with
  | |- emits _ (bind _ _) => apply emits_bind; [|intros ?]
  | |- emits _ (ret _) => apply emits_ret
  | |- emits _ (raise _) => apply emits_raise
  | |- emits _ (lift _) => apply emits_lift
  | |- emits _ (emit _) => apply emits_emit; simpl; eauto
  | |- emits _ (send _ _) => apply emits_send; simpl; eauto
  | |- emits _ (fun h => (Ok (utcnow _ h), h)) => apply emits_clock
  | |- emits _ (if ?b then _ else _) => destruct b
  | |- emits _ (match ?x with _ => _ end) => destruct x
  | |- emits _ _ => solve [eauto]
  end.

Lemma emits_raise_for_status P resp : emits P (raise_for_status resp).
Proof. unfold raise_for_status. repeat emits_step. Qed.

Lemma emits_resp_json P resp : emits P (resp_json resp).
Proof. unfold resp_json. repeat emits_step. Qed.

Lemma emits_json_or_empty P resp : emits P (json_or_empty resp).
Proof. unfold json_or_empty. pose proof (emits_resp_json P). repeat emits_step. Qed.

Lemma emits_env P W name : emits P (env W name).
Proof. unfold env. repeat emits_step. Qed.

Lemma emits_api_get (P : event -> Prop) W p token params :
  P (Sent (ApiGet p token params)) -> emits P (api_get W p token params).
Proof.
  intros HP. unfold api_get.
  pose proof (emits_raise_for_status P). pose proof (emits_resp_json P).
  repeat emits_step.
Qed.

Lemma emits_api_post (P : event -> Prop) W p token json_data :
  P (Sent (ApiPost p token json_data)) -> emits P (api_post W p token json_data).
Proof.
  intros HP. unfold api_post.
  pose proof (emits_raise_for_status P). pose proof (emits_json_or_empty P).
  repeat emits_step.
Qed.

Lemma emits_api_put (P : event -> Prop) W p token json_data :
  P (Sent (ApiPut p token json_data)) -> emits P (api_put W p token json_data).
Proof.
  intros HP. unfold api_put.
  pose proof (emits_raise_for_status P). pose proof (emits_json_or_empty P).
  repeat emits_step.
Qed.

Lemma emits_search_show_id (P : event -> Prop) W token query :
  P (Sent (search_request token query)) -> emits P (search_show_id W token query).
Proof.
  intros HP. unfold search_show_id.
  pose proof (emits_api_get P W Search token _ HP). repeat emits_step.
Qed.

Lemma emits_selector (P : event -> Prop) W token show_id fresh_hours :
  P (Sent (episodes_request token show_id)) ->
  emits P (get_latest_fresh_episode_uri W token show_id fresh_hours).
Proof.
  intros HP. unfold get_latest_fresh_episode_uri.
  pose proof (emits_api_get P W (ShowEpisodes show_id) token _ HP).
  repeat emits_step.
Qed.

Lemma emits_add_latest W token show_query a :
  emits (builder_event token) (add_latest W token show_query a).
Proof.
  unfold add_latest. destruct a as [episode_uris seen].
  apply emits_bind; [by apply emits_search_show_id|intros show_id].
  destruct (negb (truthy show_id)); [apply emits_ret|].
  apply emits_bind; [by apply emits_selector|intros uri].
  repeat emits_step.
Qed.

Lemma emits_add_all W token queries : forall a,
  emits (builder_event token) (add_all W token queries a).
Proof.
  induction queries as [|query rest IH]; intros a; cbn [add_all].
  - apply emits_ret.
  - apply emits_bind; [apply emits_add_latest|done].
Qed.

Lemma builder_only_reads_aux W token : emits (builder_event token) (build_episode_list W token).
Proof.
  unfold build_episode_list.
  apply emits_bind; [apply emits_add_all|intros a; apply emits_ret].
Qed.

(** X1: the episode list builder only reads: whatever happens, everything
    it adds to the history is a search or an episode listing made with its
    own token, or the pause of 0.25. *)
Theorem builder_only_reads (W : Env) (token : json) (h : history)
    (r : result (list json)) (h' : history) :
  build_episode_list W token h = (r, h') ->
  exists evs, h' = h ++ evs /\ Forall (builder_event token) evs.
Proof.
  apply builder_only_reads_aux.
Qed.

Lemma builder_only_reads_witness :
  exists evs, snd (build_episode_list W_six (JStr "token") []) = [] ++ evs
              /\ Forall (builder_event (JStr "token")) evs.
Proof.
  apply (builder_only_reads W_six (JStr "token") []
           (fst (build_episode_list W_six (JStr "token") []))).
  by destruct (build_episode_list W_six (JStr "token") []).
Defined.

Lemma builder_event_main token e : builder_event token e -> main_event e.
Proof.
  destruct e as [[c d|p t params|p t d|p t d]|q|line]; simpl; try done.
  by destruct p.
Qed.

Lemma emits_find_playlist (P : event -> Prop) W fuel token name limit :
  (forall offset, P (Sent (ApiGet MePlaylists token
                             [("limit", JInt limit); ("offset", JInt offset)]))) ->
  forall offset, emits P (find_playlist W fuel token name limit offset).
Proof.
  intros HP. induction fuel as [|fuel IH]; intros offset; cbn [find_playlist].
  - apply emits_lift.
  - apply emits_bind; [by apply emits_api_get|intros page].
    repeat emits_step.
Qed.

Lemma emits_get_access_token W : emits main_event (get_access_token W).
Proof.
  unfold get_access_token.
  pose proof (emits_env main_event W). pose proof (emits_raise_for_status main_event).
  pose proof (emits_resp_json main_event).
  repeat emits_step.
Qed.

(** X2: every event of a run is a token request with grant type
    [refresh_token], a playlist-page, search or episode-listing read, the
    creation of the private playlist named [PLAYLIST_NAME], a replacement of
    playlist items, a pause, or one of the two summary lines: the script
    never creates a public playlist and sends nothing else. *)
Theorem run_events_are_known (W : Env) (fuel : nat) (h : history)
    (r : result unit) (h' : history) :
  main W fuel h = (r, h') ->
  exists evs, h' = h ++ evs /\ Forall main_event evs.
Proof.
  revert h r h'. change (emits main_event (main W fuel)). unfold main.
  apply emits_bind; [apply emits_get_access_token|intros token].
  apply emits_bind; [apply emits_env|intros user_id].
  apply emits_bind.
  { unfold get_or_create_playlist.
    apply emits_bind; [by apply emits_find_playlist|intros [id|]].
    - apply emits_ret.
    - apply emits_bind; [by apply emits_api_post|intros resp; apply emits_lift]. }
  intros playlist_id. apply emits_bind.
  { intros h r h' Hrun. destruct (builder_only_reads_aux W token h r h' Hrun)
      as (evs & -> & Hevs).
    exists evs. split; [done|]. eapply Forall_impl; [exact Hevs|].
    apply builder_event_main. }
  intros [|uri uris].
  - apply emits_emit. by left.
  - unfold replace_playlist_items.
    apply emits_bind.
    + apply emits_bind; [by apply emits_api_put|intros j; apply emits_ret].
    + intros _. apply emits_emit. right. eauto.
Qed.

Lemma run_events_are_known_witness :
  exists evs, snd (main W_scenario 1 []) = [] ++ evs /\ Forall main_event evs.
Proof.
  apply (run_events_are_known W_scenario 1 [] (fst (main W_scenario 1 []))).
  by destruct (main W_scenario 1 []).
Defined.

(** ** The HTTP wrappers *)

(** X3: each of the three wrappers sends its request once and, when the
    response status lies in 400..599, raises [HTTPError] with that status
    without looking at the body. *)
Theorem wrappers_raise_on_error_status
    (W : Env) (p : path) (token : json) (params : list (string * json))
    (json_data : json) (h : history) (resp : response) :
  400 <= status_code resp < 600 ->
  (server W h (ApiGet p token params) = Reply resp ->
   api_get W p token params h
   = (Raise (HTTPError (status_code resp)), h ++ [Sent (ApiGet p token params)]))
  /\ (server W h (ApiPost p token json_data) = Reply resp ->
      api_post W p token json_data h
      = (Raise (HTTPError (status_code resp)), h ++ [Sent (ApiPost p token json_data)]))
  /\ (server W h (ApiPut p token json_data) = Reply resp ->
      api_put W p token json_data h
      = (Raise (HTTPError (status_code resp)), h ++ [Sent (ApiPut p token json_data)])).
Proof.
  intros Hstatus.
  assert (Herr : (400 <=? status_code resp) && (status_code resp <? 600) = true).
  { apply andb_true_iff. split; [apply Z.leb_le|apply Z.ltb_lt]; lia. }
  repeat split; intros Hs.
  - unfold api_get, bind, send, raise_for_status. by rewrite Hs, Herr.
  - unfold api_post, bind, send, raise_for_status. by rewrite Hs, Herr.
  - unfold api_put, bind, send, raise_for_status. rewrite Hs.
    destruct (Z.eqb_spec (status_code resp) 200); [lia|].
    destruct (Z.eqb_spec (status_code resp) 201); [lia|].
    simpl. by rewrite Herr.
Qed.

Lemma wrappers_raise_on_error_status_witness :
  api_get W_failing Search (JStr "token") [] []
    = (Raise (HTTPError 500), [] ++ [Sent (ApiGet Search (JStr "token") [])])
  /\ api_put W_failing (PlaylistTracks (JStr "p")) (JStr "token") (JObj []) []
    = (Raise (HTTPError 500),
       [] ++ [Sent (ApiPut (PlaylistTracks (JStr "p")) (JStr "token") (JObj []))]).
Proof.
  destruct (wrappers_raise_on_error_status W_failing Search (JStr "token") [] (JObj []) []
              (Response 500 "Internal Server Error" None)) as (Hget & _ & _);
    [simpl; lia|].
  destruct (wrappers_raise_on_error_status W_failing (PlaylistTracks (JStr "p"))
              (JStr "token") [] (JObj []) []
              (Response 500 "Internal Server Error" None)) as (_ & _ & Hput);
    [simpl; lia|].
  split; [exact (Hget eq_refl)|exact (Hput eq_refl)].
Defined.

(** X4: [replace_playlist_items] sends one PUT carrying the URIs in their
    order, and accepts every status outside 400..599, not only 200 and 201:
    it returns normally when the response text is empty or decodes, and
    raises [JSONDecodeError], after the write was accepted, when a non-empty
    text does not decode. *)
Theorem replacement_accepts_any_success
    (W : Env) (token playlist_id : json) (uris : list json) (h : history)
    (resp : response) :
  server W h (replace_request token playlist_id uris) = Reply resp ->
  ok_status resp = true ->
  replace_playlist_items W token playlist_id uris h
  = (if String.eqb (text resp) "" then Ok tt
     else match json_body resp with
          | Some _ => Ok tt
          | None => Raise JSONDecodeError
          end,
     h ++ [Sent (ApiPut (PlaylistTracks playlist_id) token (JObj [("uris", JArr uris)]))]).
Proof.
  unfold replace_request, ok_status. intros Hs Hok.
  unfold replace_playlist_items, api_put, bind, send. rewrite Hs.
  assert (Hpass : (if (status_code resp =? 200) || (status_code resp =? 201)
                   then ret tt else raise_for_status resp)
                    (h ++ [Sent (ApiPut (PlaylistTracks playlist_id) token
                                   (JObj [("uris", JArr uris)]))])
                  = (Ok tt, h ++ [Sent (ApiPut (PlaylistTracks playlist_id) token
                                          (JObj [("uris", JArr uris)]))])).
  { destruct (_ || _); [done|]. unfold raise_for_status.
    by destruct (_ && _). }
  rewrite Hpass. unfold json_or_empty, resp_json, ret, raise.
  destruct (String.eqb (text resp) ""); [done|].
  by destruct (json_body resp).
Qed.

Lemma replacement_accepts_any_success_witness :
  replace_playlist_items W_no_content (JStr "token") (JStr "p") [JStr "a"; JStr "b"] []
  = (Ok tt, [] ++ [Sent (ApiPut (PlaylistTracks (JStr "p")) (JStr "token")
                           (JObj [("uris", JArr [JStr "a"; JStr "b"])]))]).
Proof.
  apply (replacement_accepts_any_success W_no_content (JStr "token") (JStr "p")
           [JStr "a"; JStr "b"] [] (Response 204 "" None)); reflexivity.
Defined.

(** ** Show lookup *)

(** X5: when the search is answered and its "shows.items" is a list,
    [search_show_id] returns the "id" of the first item, whatever follows
    it, and [None] when the list is empty; a first item without "id" raises. *)
Theorem search_returns_first_result
    (W : Env) (token : json) (query : string) (h : history)
    (data shows : json) (items : list json) :
  answers W h (search_request token query) data ->
  py_get data "shows" (JObj []) = Ok shows ->
  py_get shows "items" (JArr []) = Ok (JArr items) ->
  search_show_id W token query h
  = (match items with
     | [] => Ok JNull
     | first :: _ => py_getitem first "id"
     end, h ++ [Sent (search_request token query)]).
Proof.
  intros Hans Hshows Hitems. unfold search_show_id.
  fold (search_request token query).
  rewrite (bind_ok _ _ _ _ _ (api_get_answers _ _ _ _ _ _ Hans)).
  unfold bind, lift. rewrite Hshows, Hitems.
  destruct items as [|first rest]; [done|]. simpl.
  by destruct (py_getitem first "id").
Qed.

Lemma search_returns_first_result_witness :
  search_show_id W_six (JStr "token") "Ao Ponto" []
  = (Ok (JStr "Ao Ponto"), [] ++ [Sent (search_request (JStr "token") "Ao Ponto")]).
Proof.
  apply (search_returns_first_result W_six (JStr "token") "Ao Ponto" []
           (JObj [("shows", JObj [("items", JArr [JObj [("id", JStr "Ao Ponto")]])])])
           (JObj [("items", JArr [JObj [("id", JStr "Ao Ponto")]])])
           [JObj [("id", JStr "Ao Ponto")]]).
  - eexists. split; [reflexivity|]. split; reflexivity.
  - reflexivity.
  - reflexivity.
Defined.

(** X6: a query whose search finds no show costs one request: [add_latest]
    returns the accumulator as it was, asks for no episode listing and does
    not pause. *)
Theorem unresolved_show_is_skipped
    (W : Env) (token : json) (show_query : string) (a : acc) (h : history)
    (data shows : json) :
  answers W h (search_request token show_query) data ->
  py_get data "shows" (JObj []) = Ok shows ->
  py_get shows "items" (JArr []) = Ok (JArr []) ->
  add_latest W token show_query a h
  = (Ok a, h ++ [Sent (search_request token show_query)]).
Proof.
  intros Hans Hshows Hitems. unfold add_latest. destruct a as [episode_uris seen].
  assert (Hsearch : search_show_id W token show_query h
                    = (Ok JNull, h ++ [Sent (search_request token show_query)])).
  { unfold search_show_id. fold (search_request token show_query).
    rewrite (bind_ok _ _ _ _ _ (api_get_answers _ _ _ _ _ _ Hans)).
    unfold bind, lift. by rewrite Hshows, Hitems. }
  by rewrite (bind_ok _ _ _ _ _ Hsearch).
Qed.

Lemma unresolved_show_is_skipped_witness :
  add_latest W_nothing_found (JStr "token") "Ao Ponto" ([JStr "ep0"], [JStr "ep0"]) []
  = (Ok ([JStr "ep0"], [JStr "ep0"]),
     [] ++ [Sent (search_request (JStr "token") "Ao Ponto")]).
Proof.
  apply (unresolved_show_is_skipped W_nothing_found (JStr "token") "Ao Ponto"
           ([JStr "ep0"], [JStr "ep0"]) [] (JObj []) (JObj [])).
  - eexists. split; [reflexivity|]. split; reflexivity.
  - reflexivity.
  - reflexivity.
Defined.

(** ** Duplicates and pauses in the builder *)

(** X7: when the selected URI is a string already in the seen-set,
    [add_latest] leaves the list and the set as they were and does not
    pause. *)
Theorem duplicate_uri_is_skipped
    (W : Env) (token : json) (show_query : string) (episode_uris seen : list json)
    (h h1 h2 : history) (show_id : json) (s : string) :
  search_show_id W token show_query h = (Ok show_id, h1) ->
  truthy show_id = true ->
  get_latest_fresh_episode_uri W token show_id FRESH_HOURS h1 = (Ok (JStr s), h2) ->
  JStr s ∈ seen ->
  add_latest W token show_query (episode_uris, seen) h = (Ok (episode_uris, seen), h2).
Proof.
  intros Hsearch Hshow Hsel Hin. unfold add_latest.
  rewrite (bind_ok _ _ _ _ _ Hsearch), Hshow. cbn [negb].
  rewrite (bind_ok _ _ _ _ _ Hsel).
  destruct (truthy (JStr s)); [|done].
  assert (Hdup : py_in (JStr s) seen = Ok true).
  { unfold py_in. cbn [hashable]. f_equal. apply existsb_exists.
    exists (JStr s). split; [by apply list_elem_of_In|]. by apply py_eq_refl. }
  unfold bind, lift. by rewrite Hdup.
Qed.

Lemma duplicate_uri_is_skipped_witness :
  add_latest W_scenario (JStr "token") "Ao Ponto" ([JStr "ep1"], [JStr "ep1"]) []
  = (Ok ([JStr "ep1"], [JStr "ep1"]),
     [Sent (search_request (JStr "token") "Ao Ponto");
      Sent (episodes_request (JStr "token") (JStr "Ao Ponto"))]).
Proof.
  apply (duplicate_uri_is_skipped W_scenario (JStr "token") "Ao Ponto"
           [JStr "ep1"] [JStr "ep1"] []
           [Sent (search_request (JStr "token") "Ao Ponto")]
           [Sent (search_request (JStr "token") "Ao Ponto");
            Sent (episodes_request (JStr "token") (JStr "Ao Ponto"))]
           (JStr "Ao Ponto") "ep1").
  - vm_compute; reflexivity.
  - reflexivity.
  - vm_compute; reflexivity.
  - apply list_elem_of_here.
Defined.

Lemma sleeps_app a b : sleeps (a ++ b) = (sleeps a + sleeps b)%nat.
Proof. unfold sleeps. by rewrite List.filter_app, length_app. Qed.

Lemma sleeps_none evs : Forall (fun e => is_sleep e = false) evs -> sleeps evs = 0%nat.
Proof.
  unfold sleeps. induction 1 as [|e evs He _ IH]; [done|]. simpl. by rewrite He.
Qed.

Lemma add_latest_pauses W token show_query episode_uris seen h a' h' :
  add_latest W token show_query (episode_uris, seen) h = (Ok a', h') ->
  exists evs, h' = h ++ evs
              /\ length (fst a') = (length episode_uris + sleeps evs)%nat.
Proof.
  unfold add_latest, bind, ret, lift, emit.
  destruct (search_show_id W token show_query h) as [[show_id|e|] h1] eqn:Hsearch;
    [|discriminate..].
  destruct (emits_search_show_id (fun e => is_sleep e = false) W token show_query
              eq_refl _ _ _ Hsearch) as (evs1 & -> & H1).
  destruct (truthy show_id); cbn [negb].
  2:{ intros [= <- Ha]. exists evs1. split; [done|].
      rewrite (sleeps_none _ H1). simpl. lia. }
  destruct (get_latest_fresh_episode_uri W token show_id FRESH_HOURS (h ++ evs1))
    as [[uri|e|] h2] eqn:Hsel; [|discriminate..].
  destruct (emits_selector (fun e => is_sleep e = false) W token show_id FRESH_HOURS
              eq_refl _ _ _ Hsel) as (evs2 & -> & H2).
  assert (Hquiet : sleeps (evs1 ++ evs2) = 0%nat).
  { by rewrite sleeps_app, (sleeps_none _ H1), (sleeps_none _ H2). }
  destruct (truthy uri).
  2:{ intros [= <- Ha]. exists (evs1 ++ evs2). rewrite Hquiet, app_assoc. simpl.
      split; [done|lia]. }
  destruct (py_in uri seen) as [[|]|e|]; [| |discriminate..].
  - intros [= <- Ha]. exists (evs1 ++ evs2). rewrite Hquiet, app_assoc. simpl.
    split; [done|lia].
  - intros [= <- Ha]. exists ((evs1 ++ evs2) ++ [Slept (1 # 4)]).
    rewrite sleeps_app, Hquiet, !app_assoc.
    change (sleeps [Slept (1 # 4)]) with 1%nat. simpl. rewrite length_app. simpl.
    split; [done|lia].
Qed.

Lemma add_all_pauses W token queries : forall a h a' h',
  add_all W token queries a h = (Ok a', h') ->
  exists evs, h' = h ++ evs /\ length (fst a') = (length (fst a) + sleeps evs)%nat.
Proof.
  induction queries as [|query rest IH]; intros a h a' h'; cbn [add_all].
  - unfold ret. intros [= ? ?]; subst. exists []. rewrite app_nil_r.
    change (sleeps []) with 0%nat. split; [done|lia].
  - unfold bind.
    destruct (add_latest W token query a h) as [[a1|e|] h1] eqn:Hone; [|discriminate..].
    intros Hrest. destruct a as [episode_uris seen].
    destruct (add_latest_pauses _ _ _ _ _ _ _ _ Hone) as (evs1 & -> & Hlen1).
    destruct (IH _ _ _ _ Hrest) as (evs2 & -> & Hlen2).
    exists (evs1 ++ evs2). rewrite sleeps_app, app_assoc. simpl in *.
    split; [done|lia].
Qed.

(** X8: the builder pauses exactly once for every URI of the list it
    returns: the number of [time.sleep] calls of a run that returns equals
    the length of the returned list. *)
Theorem builder_pauses_once_per_uri
    (W : Env) (token : json) (h : history) (uris : list json) (h' : history) :
  build_episode_list W token h = (Ok uris, h') ->
  exists evs, h' = h ++ evs /\ sleeps evs = length uris.
Proof.
  unfold build_episode_list, bind.
  destruct (add_all W token _ _ h) as [[a|e|] h1] eqn:Hall; [|discriminate..].
  unfold ret. intros [= Ha <-]. subst uris.
  destruct (add_all_pauses _ _ _ _ _ _ _ Hall) as (evs & -> & Hlen).
  destruct (add_all_spec _ _ _ _ _ _ _ (NoDup_nil_2) Hall)
    as (added & used & -> & _ & Hsub & Hy).
  exists evs. split; [done|]. cbn [app fst length] in *.
  apply sublist_length in Hsub. apply Forall2_length in Hy.
  rewrite take_ge; [lia|]. simpl in Hsub. lia.
Qed.

Lemma builder_pauses_once_per_uri_witness :
  exists evs, snd (build_episode_list W_six (JStr "token") []) = [] ++ evs
              /\ sleeps evs = 6%nat.
Proof.
  edestruct (builder_pauses_once_per_uri W_six (JStr "token") []) as (evs & H1 & H2).
  - vm_compute; reflexivity.
  - exists evs. split; [|exact H2]. vm_compute. vm_compute in H1. exact H1.
Defined.

(** ** More on the freshness selector *)




(** X10: a release date that is truthy but not a string is not skipped:
    [strptime] raises [TypeError], which the [except ValueError] does not
    catch, so the selector raises when it reaches such an episode. *)
Theorem non_string_release_date_raises
    (W : Env) (token show_id : json) (fresh_hours : Z) (h : history) (data : json)
    (before : list json) (episode : json) (after : list json) (v : json) :
  answers W h (episodes_request token show_id) data ->
  py_get data "items" (JArr []) = Ok (JArr (before ++ episode :: after)) ->
  forallb (passed_over (utcnow W (h ++ [Sent (episodes_request token show_id)]))
             fresh_hours) before = true ->
  py_get episode "release_date" JNull = Ok v ->
  truthy v = true ->
  (forall s, v <> JStr s) ->
  get_latest_fresh_episode_uri W token show_id fresh_hours h
  = (Raise TypeError, h ++ [Sent (episodes_request token show_id)]).
Proof.
  intros Hans Hitems Hbefore Hrd Htruthy Hnot.
  destruct (before ++ episode :: after) as [|first rest] eqn:Heq.
  { by destruct before. }
  rewrite (selector_on_listing _ _ _ _ _ _ _ _ Hans Hitems).
  rewrite <- Heq, (first_fresh_passed_over _ _ _ _ Hbefore).
  cbn [first_fresh]. rewrite Hrd. cbn [rbind]. rewrite Htruthy. cbn [negb].
  destruct v as [| | | |s| |]; try done. by destruct (Hnot s).
Qed.

Lemma non_string_release_date_raises_witness :
  get_latest_fresh_episode_uri W_bad_date (JStr "token") (JStr "show") 36 []
  = (Raise TypeError, [] ++ [Sent (episodes_request (JStr "token") (JStr "show"))]).
Proof.
  apply (non_string_release_date_raises W_bad_date (JStr "token") (JStr "show") 36 []
           (listing [JObj [("release_date", JInt 20240109); ("uri", JStr "ep1")];
                     episode_entry "2024-01-09" "ep2"])
           [] (JObj [("release_date", JInt 20240109); ("uri", JStr "ep1")])
           [episode_entry "2024-01-09" "ep2"] (JInt 20240109)).
  - eexists. split; [reflexivity|]. split; reflexivity.
  - reflexivity.
  - reflexivity.
  - reflexivity.
  - reflexivity.
  - intros s; discriminate.
Defined.

Lemma strptime_short s : (String.length s < 8)%nat -> strptime_ymd s = None.
Proof.
  intros Hlen. unfold strptime_ymd.
  destruct s as [|c1 [|c2 [|c3 [|c4 [|c5 [|c6 [|c7 [|c8 s]]]]]]]];
    simpl in Hlen; try lia; try reflexivity; cbn [list_ascii_of_string];
    destruct (digit c1), (digit c2), (digit c3), (digit c4); try reflexivity;
    destruct (Ascii.eqb c5 dash); try reflexivity;
    unfold parse_month, orelse; cbv beta iota; try reflexivity.
  destruct (digit_in 1 9 c6); [|reflexivity].
  by destruct (Ascii.eqb c7 dash).
Qed.

(** X11: a release date given with year or month precision, or any other
    string of fewer than 8 characters, never passes for fresh: the loop
    moves on to the next episode. *)
Theorem short_release_date_is_passed_over
    (now : datetime) (fresh_hours : Z) (episode : json) (rest : list json) (s : string) :
  py_get episode "release_date" JNull = Ok (JStr s) ->
  (String.length s < 8)%nat ->
  first_fresh now fresh_hours (episode :: rest) = first_fresh now fresh_hours rest.
Proof.
  intros Hrd Hlen. cbn [first_fresh]. rewrite Hrd. cbn [rbind].
  destruct (negb (truthy (JStr s))); [done|].
  by rewrite (strptime_short _ Hlen).
Qed.

Lemma short_release_date_is_passed_over_witness :
  first_fresh scenario_now 36
    [episode_entry "2024-01" "ep1"; episode_entry "2024-01-09" "ep2"]
  = first_fresh scenario_now 36 [episode_entry "2024-01-09" "ep2"].
Proof.
  apply (short_release_date_is_passed_over scenario_now 36
           (episode_entry "2024-01" "ep1") [episode_entry "2024-01-09" "ep2"] "2024-01").
  - reflexivity.
  - simpl; lia.
Defined.

Lemma float_le_int_mono x n n' :
  n <= n' -> float_le_int x n = true -> float_le_int x n' = true.
Proof.
  unfold float_le_int, float_cmp_int. intros Hn.
  destruct x as [s|s| |s m e]; [| |done|].
  - destruct (Z.compare_spec 0 n); try done; by destruct (Z.compare_spec 0 n'); [..|lia].
  - done.
  - destruct (0 <=? e) eqn:He.
    + destruct (Z.compare_spec ((if s then Z.neg m else Z.pos m) * 2 ^ e) n);
        try done;
        by destruct (Z.compare_spec ((if s then Z.neg m else Z.pos m) * 2 ^ e) n');
          [..|lia].
    + apply Z.leb_gt in He.
      pose proof (Z.pow_pos_nonneg 2 (- e) ltac:(lia) ltac:(lia)) as Hpow.
      destruct (Z.compare_spec (if s then Z.neg m else Z.pos m) (n * 2 ^ (- e)));
        try done;
        by destruct (Z.compare_spec (if s then Z.neg m else Z.pos m) (n' * 2 ^ (- e)));
          [..|nia].
Qed.

(** X12: the freshness test is monotone in the window: an episode that is
    fresh for a window of [fresh_hours] hours is fresh for every larger
    window. *)
Theorem wider_window_keeps_fresh
    (now release_dt : datetime) (fresh_hours wider : Z) :
  fresh_hours <= wider ->
  within_window now release_dt fresh_hours = true ->
  within_window now release_dt wider = true.
Proof. unfold within_window. apply float_le_int_mono. Qed.

Lemma wider_window_keeps_fresh_witness :
  within_window scenario_now (DateTime 2024 1 9 12 0 0 0) 36 = true.
Proof.
  apply (wider_window_keeps_fresh scenario_now (DateTime 2024 1 9 12 0 0 0) 24 36).
  - lia.
  - vm_compute; reflexivity.
Defined.

(** ** Pagination without end *)




(** ** The token exchange *)

Lemma env_has_value W name value h :
  has_value W name value -> env W name h = (Ok value, h).
Proof.
  intros [Hget Hne]. unfold env. rewrite Hget.
  by destruct (String.eqb_spec value "").
Qed.

Lemma get_access_token_run W h client_id client_secret refresh_token :
  has_value W "SPOTIFY_CLIENT_ID" client_id ->
  has_value W "SPOTIFY_CLIENT_SECRET" client_secret ->
  has_value W "SPOTIFY_REFRESH_TOKEN" refresh_token ->
  get_access_token W h
  = (resp <- send W (token_request client_id client_secret refresh_token);;
     raise_for_status resp;;;
     j <- resp_json resp;;
     lift (py_getitem j "access_token")) h.
Proof.
  intros H1 H2 H3. unfold get_access_token.
  by rewrite (bind_ok _ _ _ _ _ (env_has_value _ _ _ h H1)),
    (bind_ok _ _ _ _ _ (env_has_value _ _ _ h H2)),
    (bind_ok _ _ _ _ _ (env_has_value _ _ _ h H3)).
Qed.

(** X14: with the three credentials set, [get_access_token] sends one
    request carrying [client_id:client_secret], the grant type
    [refresh_token] and the refresh token, and returns the "access_token"
    field of a successful answer; an answer without that field raises. *)
Theorem token_exchange_returns_access_token
    (W : Env) (h : history) (client_id client_secret refresh_token : string)
    (resp : response) (j : json) :
  has_value W "SPOTIFY_CLIENT_ID" client_id ->
  has_value W "SPOTIFY_CLIENT_SECRET" client_secret ->
  has_value W "SPOTIFY_REFRESH_TOKEN" refresh_token ->
  server W h (token_request client_id client_secret refresh_token) = Reply resp ->
  ok_status resp = true ->
  json_body resp = Some j ->
  get_access_token W h
  = (py_getitem j "access_token",
     h ++ [Sent (TokenPost (client_id +:+ ":" +:+ client_secret)
                   [("grant_type", "refresh_token"); ("refresh_token", refresh_token)])]).
Proof.
  intros H1 H2 H3 Hs Hok Hj. rewrite (get_access_token_run _ _ _ _ _ H1 H2 H3).
  unfold ok_status in Hok. apply negb_true_iff in Hok.
  unfold bind, send. rewrite Hs. unfold raise_for_status. rewrite Hok.
  unfold resp_json. rewrite Hj. reflexivity.
Qed.

Lemma token_exchange_returns_access_token_witness :
  get_access_token W_six []
  = (Ok (JStr "token"),
     [] ++ [Sent (TokenPost "id:secret"
                    [("grant_type", "refresh_token"); ("refresh_token", "refresh")])]).
Proof.
  apply (token_exchange_returns_access_token W_six [] "id" "secret" "refresh"
           (Response 200 "{}" (Some (JObj [("access_token", JStr "token")])))
           (JObj [("access_token", JStr "token")])).
  - split; [vm_compute; reflexivity|discriminate].
  - split; [vm_compute; reflexivity|discriminate].
  - split; [vm_compute; reflexivity|discriminate].
  - reflexivity.
  - reflexivity.
  - reflexivity.
Defined.

(** X15: when the token endpoint answers with a status in 400..599, the
    run aborts with [HTTPError] right after the token request: the user
    identifier is not read and no API call is made. *)
Theorem token_failure_aborts_run
    (W : Env) (fuel : nat) (h : history)
    (client_id client_secret refresh_token : string) (resp : response) :
  has_value W "SPOTIFY_CLIENT_ID" client_id ->
  has_value W "SPOTIFY_CLIENT_SECRET" client_secret ->
  has_value W "SPOTIFY_REFRESH_TOKEN" refresh_token ->
  server W h (token_request client_id client_secret refresh_token) = Reply resp ->
  400 <= status_code resp < 600 ->
  main W fuel h
  = (Raise (HTTPError (status_code resp)),
     h ++ [Sent (token_request client_id client_secret refresh_token)]).
Proof.
  intros H1 H2 H3 Hs Hstatus. unfold main.
  apply bind_raise. rewrite (get_access_token_run _ _ _ _ _ H1 H2 H3).
  unfold bind, send. rewrite Hs. unfold raise_for_status.
  assert (Herr : (400 <=? status_code resp) && (status_code resp <? 600) = true).
  { apply andb_true_iff. split; [apply Z.leb_le|apply Z.ltb_lt]; lia. }
  by rewrite Herr.
Qed.

Lemma token_failure_aborts_run_witness :
  main W_failing 1 []
  = (Raise (HTTPError 500), [] ++ [Sent (token_request "id" "secret" "refresh")]).
Proof.
  apply (token_failure_aborts_run W_failing 1 [] "id" "secret" "refresh"
           (Response 500 "Internal Server Error" None)).
  - split; [vm_compute; reflexivity|discriminate].
  - split; [vm_compute; reflexivity|discriminate].
  - split; [vm_compute; reflexivity|discriminate].
  - reflexivity.
  - simpl; lia.
Defined.

(** ** Release dates with day precision *)

Lemma digit_digit_char k : 0 <= k <= 9 -> digit (digit_char k) = Some k.
Proof.
  intros Hk.
  assert (Hcases : k = 0 \/ k = 1 \/ k = 2 \/ k = 3 \/ k = 4 \/ k = 5 \/ k = 6
                   \/ k = 7 \/ k = 8 \/ k = 9) by lia.
  repeat (destruct Hcases as [->|Hcases]; [reflexivity|]). by subst.
Qed.

Lemma parse_month_two_digits m rest :
  1 <= m <= 12 -> parse_month (two_digits m ++ dash :: rest) = Some (m, rest).
Proof.
  intros Hm.
  assert (Hcases : m = 1 \/ m = 2 \/ m = 3 \/ m = 4 \/ m = 5 \/ m = 6 \/ m = 7
                   \/ m = 8 \/ m = 9 \/ m = 10 \/ m = 11 \/ m = 12) by lia.
  repeat (destruct Hcases as [->|Hcases]; [reflexivity|]). by subst.
Qed.

Lemma parse_day_two_digits d : 1 <= d <= 31 -> parse_day (two_digits d) = Some d.
Proof.
  intros Hd.
  assert (Hcases : d = 1 \/ d = 2 \/ d = 3 \/ d = 4 \/ d = 5 \/ d = 6 \/ d = 7
                   \/ d = 8 \/ d = 9 \/ d = 10 \/ d = 11 \/ d = 12 \/ d = 13
                   \/ d = 14 \/ d = 15 \/ d = 16 \/ d = 17 \/ d = 18 \/ d = 19
                   \/ d = 20 \/ d = 21 \/ d = 22 \/ d = 23 \/ d = 24 \/ d = 25
                   \/ d = 26 \/ d = 27 \/ d = 28 \/ d = 29 \/ d = 30 \/ d = 31) by lia.
  repeat (destruct Hcases as [->|Hcases]; [reflexivity|]). by subst.
Qed.

Lemma days_in_month_le y m : 1 <= m <= 12 -> 1 <= days_in_month y m <= 31.
Proof.
  intros Hm. unfold days_in_month.
  assert (Hcases : m = 1 \/ m = 2 \/ m = 3 \/ m = 4 \/ m = 5 \/ m = 6 \/ m = 7
                   \/ m = 8 \/ m = 9 \/ m = 10 \/ m = 11 \/ m = 12) by lia.
  repeat (destruct Hcases as [->|Hcases]; [simpl; try destruct (is_leap y); simpl; lia|]).
  subst. simpl. lia.
Qed.

Lemma four_digits_value y :
  1 <= y <= 9999 ->
  0 <= y / 1000 <= 9 /\ 0 <= y / 100 mod 10 <= 9 /\ 0 <= y / 10 mod 10 <= 9
  /\ 0 <= y mod 10 <= 9
  /\ 1000 * (y / 1000) + 100 * (y / 100 mod 10) + 10 * (y / 10 mod 10) + y mod 10 = y.
Proof. intros Hy. Z.to_euclidean_division_equations. lia. Qed.

(** X16: every existing date of the years 1 to 9999, written zero-padded as
    [YYYY-MM-DD], is accepted by the release-date parser and read back as
    that date at midnight. *)
Theorem day_precision_dates_parse (y m d : Z) :
  1 <= y <= 9999 -> 1 <= m <= 12 -> 1 <= d <= days_in_month y m ->
  strptime_ymd (isoformat y m d) = Some (DateTime y m d 0 0 0 0).
Proof.
  intros Hy Hm Hd.
  destruct (four_digits_value y Hy) as (Ha & Hb & Hc & Hdd & Hval).
  pose proof (days_in_month_le y m Hm) as Hdim.
  unfold strptime_ymd, isoformat. rewrite list_ascii_of_string_of_list_ascii.
  cbn [four_digits app].
  rewrite !digit_digit_char by done.
  change (Ascii.eqb dash dash) with true. cbv iota.
  rewrite parse_month_two_digits by done.
  rewrite parse_day_two_digits by lia.
  rewrite Hval.
  destruct (Z.leb_spec 1 y); [|lia].
  destruct (Z.leb_spec d (days_in_month y m)); [|lia].
  reflexivity.
Qed.

Lemma day_precision_dates_parse_witness :
  strptime_ymd (isoformat 2024 2 29) = Some (DateTime 2024 2 29 0 0 0 0).
Proof.
  apply (day_precision_dates_parse 2024 2 29); [lia|lia|].
  split; [lia|vm_compute; discriminate].
Defined.

(** ** Creating the playlist *)

(** X17: when no playlist has the target name and the creation call is
    accepted with an empty response text, the resolver reads the id from the
    empty dict [{}] and raises [KeyError], after the playlist was created. *)
Theorem creation_without_body_raises
    (W : Env) (fuel : nat) (token : json) (user_id name description : string)
    (public : bool) (h : history) (pages : list json) (resp : response) :
  serves W token h 0 pages ->
  forallb well_formed_page pages = true ->
  chained pages = true ->
  ends pages = true ->
  (length pages <= fuel)%nat ->
  List.find (named name) (entries pages) = None ->
  server W (h ++ page_requests token 0 (length pages))
    (create_request token user_id name description public) = Reply resp ->
  ok_status resp = true ->
  text resp = "" ->
  get_or_create_playlist W fuel token user_id name description public h
  = (Raise KeyError,
     h ++ page_requests token 0 (length pages)
       ++ [Sent (create_request token user_id name description public)]).
Proof.
  intros Hserves Hwf Hch Hend Hfuel Hfind Hs Hok Htext.
  pose proof (find_playlist_spec W token name pages fuel h 0 Hserves Hwf Hch Hfuel)
    as Hspec.
  rewrite Hfind in Hspec. unfold get_or_create_playlist.
  rewrite (bind_ok _ _ _ _ _ (Hspec Hend)).
  unfold ok_status in Hok. apply negb_true_iff in Hok.
  unfold create_request in *. unfold api_post, bind, send. rewrite Hs. unfold raise_for_status. rewrite Hok.
  unfold ret, json_or_empty. rewrite Htext. cbn. by rewrite <- app_assoc.
Qed.

Lemma creation_without_body_raises_witness :
  get_or_create_playlist W_created_silently 1 (JStr "token") "user" "Daily" "d" false []
  = (Raise KeyError,
     [] ++ page_requests (JStr "token") 0 1
        ++ [Sent (create_request (JStr "token") "user" "Daily" "d" false)]).
Proof.
  apply (creation_without_body_raises W_created_silently 1 (JStr "token") "user"
           "Daily" "d" false [] [JObj [("items", JArr [])]] (Response 201 "" None)).
  - split; [|exact I]. eexists. split; [reflexivity|]. split; reflexivity.
  - reflexivity.
  - reflexivity.
  - reflexivity.
  - simpl; lia.
  - reflexivity.
  - reflexivity.
  - reflexivity.
  - reflexivity.
Defined.

(** ** Every resolved show is listed *)

Lemma py_eq_str_inv s x : py_eq (JStr s) x = true -> x = JStr s.
Proof.
  destruct x as [|b|n|q|s'|l|kvs]; simpl; try discriminate.
  by intros ->%String.eqb_eq.
Qed.

Lemma py_in_fresh_string s seen : JStr s ∉ seen -> py_in (JStr s) seen = Ok false.
Proof.
  intros Hnot. unfold py_in. cbn [hashable]. f_equal.
  destruct (existsb (py_eq (JStr s)) seen) eqn:Hex; [|done].
  apply existsb_exists in Hex as (x & Hin & Heq).
  apply py_eq_str_inv in Heq. subst x. by apply list_elem_of_In in Hin.
Qed.

Lemma add_all_lists_all W token (id_of : string -> json) (uri_of : string -> string)
    queries : forall episode_uris h,
  (forall q, In q queries -> always_yields W token q (id_of q) (uri_of q)) ->
  NoDup (episode_uris ++ map (fun q => JStr (uri_of q)) queries) ->
  exists h',
    add_all W token queries (episode_uris, episode_uris) h
    = (Ok (episode_uris ++ map (fun q => JStr (uri_of q)) queries,
           episode_uris ++ map (fun q => JStr (uri_of q)) queries), h').
Proof.
  induction queries as [|q rest IH]; intros episode_uris h Hall Hnd; cbn [add_all map].
  - exists h. by rewrite app_nil_r.
  - destruct (Hall q (or_introl eq_refl)) as (Hid & Huri & Hsearch & Hsel).
    assert (Hfresh : JStr (uri_of q) ∉ episode_uris).
    { apply NoDup_app in Hnd as (_ & Hdisj & _). intros Hin.
      apply (Hdisj _ Hin). apply list_elem_of_here. }
    assert (Hone : add_latest W token q (episode_uris, episode_uris) h
                   = (Ok (episode_uris ++ [JStr (uri_of q)],
                          episode_uris ++ [JStr (uri_of q)]),
                      h ++ [Sent (search_request token q)]
                        ++ [Sent (episodes_request token (id_of q))]
                        ++ [Slept (1 # 4)])).
    { unfold add_latest. rewrite (bind_ok _ _ _ _ _ (Hsearch h)), Hid. cbn [negb].
      rewrite (bind_ok _ _ _ _ _ (Hsel _)).
      assert (Ht : truthy (JStr (uri_of q)) = true).
      { simpl. by destruct (String.eqb_spec (uri_of q) ""). }
      rewrite Ht. unfold bind, lift, emit, ret.
      rewrite (py_in_fresh_string _ _ Hfresh). by rewrite <- !app_assoc. }
    rewrite (bind_ok _ _ _ _ _ Hone).
    destruct (IH (episode_uris ++ [JStr (uri_of q)])
                (h ++ [Sent (search_request token q)]
                   ++ [Sent (episodes_request token (id_of q))] ++ [Slept (1 # 4)]))
      as (h' & Hrun).
    + intros q' Hq'. apply Hall. by right.
    + by rewrite <- app_assoc.
    + exists h'. rewrite Hrun. by rewrite <- !app_assoc.
Qed.

(** X18: when each configured query always finds a show and each show
    always selects a non-empty string URI, all different, the builder
    returns these URIs, one per configured query, in the configured order
    (news shows, then sports shows). *)
Theorem all_distinct_shows_are_listed
    (W : Env) (token : json) (id_of : string -> json) (uri_of : string -> string)
    (h : history) :
  (forall q, In q (NEWS_SHOW_QUERIES ++ SPORTS_SHOW_QUERIES) ->
             always_yields W token q (id_of q) (uri_of q)) ->
  NoDup (map uri_of (NEWS_SHOW_QUERIES ++ SPORTS_SHOW_QUERIES)) ->
  fst (build_episode_list W token h)
  = Ok (map (fun q => JStr (uri_of q)) (NEWS_SHOW_QUERIES ++ SPORTS_SHOW_QUERIES)).
Proof.
  intros Hall Hnd. unfold build_episode_list.
  destruct (add_all_lists_all W token id_of uri_of
              (NEWS_SHOW_QUERIES ++ SPORTS_SHOW_QUERIES) [] h Hall) as (h' & Hrun).
  { cbn [app]. rewrite <- (map_map uri_of JStr).
    apply NoDup_fmap_2; [|done]. by intros s1 s2 [= ->]. }
  rewrite (bind_ok _ _ _ _ _ Hrun). reflexivity.
Qed.

Lemma all_distinct_shows_are_listed_witness :
  fst (build_episode_list W_six (JStr "token") [])
  = Ok (map (fun q => JStr q) (NEWS_SHOW_QUERIES ++ SPORTS_SHOW_QUERIES)).
Proof.
  apply (all_distinct_shows_are_listed W_six (JStr "token") JStr (fun q => q) []).
  - intros q Hq. simpl in Hq.
    destruct Hq as [<-|[<-|[<-|[<-|[<-|[<-|[]]]]]]];
      (split; [reflexivity|]; split; [discriminate|]; split; intros h; reflexivity).
  - apply (bool_decide_unpack _). vm_compute. reflexivity.
Defined.
